(** * Aquarium: gas equilibrium of a closed tank (Aquarium.py)

    A shallow embedding of the classes [Utils] and [Tank] of [Aquarium.py].

    The Python code is duck-typed over its numbers, so the embedding is
    written once over an interface [PyFloat] of the operations the code
    uses, and read at two kinds of numbers:

    - [float], IEEE 754 binary64 with round-to-nearest-even, which is what
      a Python [float] is.  Every method evaluates there.
    - [xreal], the real numbers extended with one NaN marker: the same
      code run with exact arithmetic (no rounding, no overflow).

    Python's [/] on floats raises [ZeroDivisionError] when the divisor is
    zero, and the methods of [Tank] mutate [self] in place, so a method
    that raises leaves behind whatever it had assigned before.  Both are
    modelled: expressions live in the error monad [exc], methods in a
    state-and-error monad over the attributes of [self]. *)

From Stdlib Require Import ZArith Bool List Floats Reals Lra.
Import ListNotations.

Set Implicit Arguments.
Set Warnings "-inexact-float".

(** ** Exceptions and results *)

Inductive exn : Type := ZeroDivisionError.

Inductive exc (A : Type) : Type :=
| Val (a : A)
| Err (e : exn).

Arguments Val {A} a.
Arguments Err {A} e.

Definition exc_bind {A B : Type} (m : exc A) (k : A -> exc B) : exc B :=
  match m with
  | Val a => k a
  | Err e => Err e
  end.

Declare Scope exc_scope.
Delimit Scope exc_scope with exc.
Notation "x <- m ;; k" := (exc_bind m (fun x => k))
  (at level 61, m at next level, right associativity) : exc_scope.

(** ** The numbers of the program *)

(** What the code asks of a number.  [pquo] is the quotient itself (what
    numpy's [/] returns); Python's [/] is [pdiv] below, which tests the
    divisor first.  [prnt] is rounding to the nearest integer, ties to
    even, which [DataFrame.round] goes through. *)
Class PyFloat (T : Type) : Type := {
  padd : T -> T -> T;
  psub : T -> T -> T;
  pmul : T -> T -> T;
  pquo : T -> T -> T;
  pltb : T -> T -> bool;
  pis_zero : T -> bool;
  pof_int : Z -> T;
  pnan : T;
  prnt : T -> T
}.

(** The numpy functions the code calls on scalars.  numpy is no part of
    the repository: they are taken as given. *)
Class NumPy (T : Type) : Type := {
  np_log10 : T -> T;
  np_power : T -> T -> T
}.

(** Unary minus and [np.exp], which only the relaxation formulas of
    [Utils] use. *)
Class PyNeg (T : Type) : Type := { pneg : T -> T }.
Class NumPyExp (T : Type) : Type := { np_exp : T -> T }.

Declare Scope py_scope.
Delimit Scope py_scope with py.
Notation "x + y" := (padd x y) : py_scope.
Notation "x - y" := (psub x y) : py_scope.
Notation "x * y" := (pmul x y) : py_scope.
Notation "x <? y" := (pltb x y) : py_scope.

Section Numbers.
Context {T : Type} `{PyFloat T}.

(** An integer literal, read as a number of the program. *)
Definition py_int (z : Z) : T := pof_int z.

(** A decimal literal [m / 10^k] ([0.58] is [dec 58 2], [1e-3] is
    [dec 1 3]).  At [float] both operands are exact and the division
    rounds correctly, so this is the float Python parses the literal to
    (lemma [dec_literals]). *)
Definition dec (m : Z) (k : Z) : T := pquo (pof_int m) (pof_int (10 ^ k)).

(** Python's [x / y] on floats. *)
Definition pdiv (x y : T) : exc T :=
  if pis_zero y then Err ZeroDivisionError else Val (pquo x y).

(** A number is a Python number or a numpy scalar, and [/] depends on
    which: between two Python numbers it is Python's and raises on a
    zero divisor; as soon as one operand is a numpy scalar (such as the
    [float64] that [np.power] and [np.log10] return) it is numpy's and
    returns an infinity or NaN. *)
Inductive num_kind : Type := python_float | numpy_float64.

Definition div_as (kx ky : num_kind) (x y : T) : exc T :=
  match kx, ky with
  | python_float, python_float => pdiv x y
  | _, _ => Val (pquo x y)
  end.

(** Python's [x > y]. *)
Definition pgtb (x y : T) : bool := pltb y x.

End Numbers.

Notation "x >? y" := (pgtb x y) : py_scope.

(** ** Module constants (lines 4-13) *)

Section Constants.
Context {T : Type} `{PyFloat T}.

Definition CO2_density : T := py_int 1964.
Definition O2_density : T := py_int 1430.
Definition CO2_solubility : T := py_int 1449.
Definition O2_solubility : T := py_int 40.

(** Computed once at import; the divisors are the literals above. *)
Definition CO2_ratio : T := pquo CO2_density CO2_solubility.
Definition O2_ratio : T := pquo O2_density O2_solubility.

Definition CO2_MW : T := py_int 44.
Definition O2_MW : T := py_int 32.

End Constants.

(** ** class Utils (lines 19-66) *)

Module Utils.
Section Utils.
Context {T : Type} `{PyFloat T}.
Local Open Scope py_scope.
Local Open Scope exc_scope.

Definition M_to_ppm (M mw : T) : T := M * mw * py_int 1000.

Definition ppm_to_molar (ppm mw : T) : exc T :=
  let mass := ppm * dec 1 3 in
  pdiv mass mw.

Definition KH_to_HCO3 (KH : T) : exc T :=
  let ppm := dec 218 1 * KH in
  molar <- ppm_to_molar ppm (dec 610168 4) ;;
  Val molar.

(** The defaults [pK1=6.52] and [pK2=10.3]. *)
Definition pK1_default : T := dec 652 2.
Definition pK2_default : T := dec 103 1.

Context `{NumPy T}.

(** [HCO3_CO3_ratio] is a numpy scalar, so this division is numpy's and
    does not raise. *)
Definition get_HCO3_from_alk (alk pH pK2 : T) : T :=
  let pH_diff := pK2 - pH in
  let HCO3_CO3_ratio := np_power (py_int 10) pH_diff in
  let HCO3 := pquo (alk * HCO3_CO3_ratio) (py_int 1 + HCO3_CO3_ratio) in
  HCO3.

Definition pH_to_CO2 (pH KH pK1 pK2 : T) : exc T :=
  HCO3 <- KH_to_HCO3 KH ;;
  let HCO3_corrected := get_HCO3_from_alk HCO3 pH pK2 in
  let log10_CO2 := pK1 + np_log10 HCO3_corrected - pH in
  let CO2 := np_power (py_int 10) log10_CO2 in
  Val (CO2 * py_int 44 * py_int 1000).

(** The divisions are Python's when [CO2] is a Python float, as it is
    when [Tank.data_to_df] calls this.  The line that would correct the
    bicarbonate is commented out in the source (line 44). *)
Definition CO2_to_pH (CO2 KH pK1 pK2 : T) : exc T :=
  HCO3 <- KH_to_HCO3 KH ;;
  CO2 <- pdiv CO2 (py_int 44 * py_int 1000) ;;
  q <- pdiv HCO3 CO2 ;;
  let pH := pK1 + np_log10 q in
  Val pH.

(** The same three functions on arguments of any kind; the literals are
    Python floats.  At Python numbers they are the functions above
    (lemma [CO2_to_pH_as_python]). *)
Definition ppm_to_molar_as (kppm kmw : num_kind) (ppm mw : T) : exc T :=
  let mass := ppm * dec 1 3 in
  div_as kppm kmw mass mw.

Definition KH_to_HCO3_as (kKH : num_kind) (KH : T) : exc T :=
  let ppm := dec 218 1 * KH in
  molar <- ppm_to_molar_as kKH python_float ppm (dec 610168 4) ;;
  Val molar.

Definition CO2_to_pH_as (kCO2 kKH : num_kind) (CO2 KH pK1 pK2 : T)
    : exc T :=
  HCO3 <- KH_to_HCO3_as kKH KH ;;
  CO2 <- div_as kCO2 python_float CO2 (py_int 44 * py_int 1000) ;;
  q <- div_as kKH kCO2 HCO3 CO2 ;;
  let pH := pK1 + np_log10 q in
  Val pH.

Context `{PyNeg T} `{NumPyExp T}.

(** Lines 25-31; [-D*time] is [(-D) * time]. *)
Definition first_order_CO2 (time D CO2_eq CO2_start : T) : T :=
  (CO2_start - CO2_eq) * np_exp (pneg D * time) + CO2_eq.

Definition first_order_H (time D H_eq H_start : T) : T :=
  (H_start - H_eq) * np_exp (pneg D * time) + H_eq.

End Utils.
End Utils.

(** ** class Tank (lines 68-182) *)

Section TankModel.
Context {T : Type} `{PyFloat T} `{NumPy T}.
Local Open Scope py_scope.

(** The table [self.data]: three rows (headspace, water, total) of five
    cells (CO2 mg/l, CO2 mg, O2 mg/l, O2 mg, pH). *)
Definition DataFrame : Type := list (list T).

(** The attributes of a [Tank] object. *)
Record Tank : Type := mkTank {
  volume : T;
  headspace : T;
  KH : T;
  CO2_mass_ratio : T;
  O2_mass_ratio : T;
  CO2_water_concentration : T;
  CO2_water_amount : T;
  CO2_headspace_amount : T;
  CO2_total_amount : T;
  CO2_total_concentration : T;
  CO2_headspace_concentration : T;
  O2_water_concentration : T;
  O2_water_amount : T;
  O2_headspace_amount : T;
  O2_total_amount : T;
  O2_total_concentration : T;
  O2_headspace_concentration : T;
  O2_amount_ratio : T;
  data : DataFrame
}.

(** The names of the numeric attributes, for assignment. *)
Inductive attr : Type :=
| a_volume | a_headspace | a_KH | a_CO2_mass_ratio | a_O2_mass_ratio
| a_CO2_water_concentration | a_CO2_water_amount | a_CO2_headspace_amount
| a_CO2_total_amount | a_CO2_total_concentration
| a_CO2_headspace_concentration
| a_O2_water_concentration | a_O2_water_amount | a_O2_headspace_amount
| a_O2_total_amount | a_O2_total_concentration
| a_O2_headspace_concentration | a_O2_amount_ratio.

Definition attr_eqb (a b : attr) : bool :=
  match a, b with
  | a_volume, a_volume | a_headspace, a_headspace | a_KH, a_KH
  | a_CO2_mass_ratio, a_CO2_mass_ratio | a_O2_mass_ratio, a_O2_mass_ratio
  | a_CO2_water_concentration, a_CO2_water_concentration
  | a_CO2_water_amount, a_CO2_water_amount
  | a_CO2_headspace_amount, a_CO2_headspace_amount
  | a_CO2_total_amount, a_CO2_total_amount
  | a_CO2_total_concentration, a_CO2_total_concentration
  | a_CO2_headspace_concentration, a_CO2_headspace_concentration
  | a_O2_water_concentration, a_O2_water_concentration
  | a_O2_water_amount, a_O2_water_amount
  | a_O2_headspace_amount, a_O2_headspace_amount
  | a_O2_total_amount, a_O2_total_amount
  | a_O2_total_concentration, a_O2_total_concentration
  | a_O2_headspace_concentration, a_O2_headspace_concentration
  | a_O2_amount_ratio, a_O2_amount_ratio => true
  | _, _ => false
  end.

(** [self.a = v]: the attribute [a] becomes [v], the others stay. *)
Definition setattr (a : attr) (v : T) (self : Tank) : Tank :=
  let upd (b : attr) (old : T) : T := if attr_eqb a b then v else old in
  {| volume := upd a_volume (volume self);
     headspace := upd a_headspace (headspace self);
     KH := upd a_KH (KH self);
     CO2_mass_ratio := upd a_CO2_mass_ratio (CO2_mass_ratio self);
     O2_mass_ratio := upd a_O2_mass_ratio (O2_mass_ratio self);
     CO2_water_concentration :=
       upd a_CO2_water_concentration (CO2_water_concentration self);
     CO2_water_amount := upd a_CO2_water_amount (CO2_water_amount self);
     CO2_headspace_amount :=
       upd a_CO2_headspace_amount (CO2_headspace_amount self);
     CO2_total_amount := upd a_CO2_total_amount (CO2_total_amount self);
     CO2_total_concentration :=
       upd a_CO2_total_concentration (CO2_total_concentration self);
     CO2_headspace_concentration :=
       upd a_CO2_headspace_concentration (CO2_headspace_concentration self);
     O2_water_concentration :=
       upd a_O2_water_concentration (O2_water_concentration self);
     O2_water_amount := upd a_O2_water_amount (O2_water_amount self);
     O2_headspace_amount :=
       upd a_O2_headspace_amount (O2_headspace_amount self);
     O2_total_amount := upd a_O2_total_amount (O2_total_amount self);
     O2_total_concentration :=
       upd a_O2_total_concentration (O2_total_concentration self);
     O2_headspace_concentration :=
       upd a_O2_headspace_concentration (O2_headspace_concentration self);
     O2_amount_ratio := upd a_O2_amount_ratio (O2_amount_ratio self);
     data := data self |}.

(** [self.data = d]. *)
Definition set_data (d : DataFrame) (self : Tank) : Tank :=
  {| volume := volume self;
     headspace := headspace self;
     KH := KH self;
     CO2_mass_ratio := CO2_mass_ratio self;
     O2_mass_ratio := O2_mass_ratio self;
     CO2_water_concentration := CO2_water_concentration self;
     CO2_water_amount := CO2_water_amount self;
     CO2_headspace_amount := CO2_headspace_amount self;
     CO2_total_amount := CO2_total_amount self;
     CO2_total_concentration := CO2_total_concentration self;
     CO2_headspace_concentration := CO2_headspace_concentration self;
     O2_water_concentration := O2_water_concentration self;
     O2_water_amount := O2_water_amount self;
     O2_headspace_amount := O2_headspace_amount self;
     O2_total_amount := O2_total_amount self;
     O2_total_concentration := O2_total_concentration self;
     O2_headspace_concentration := O2_headspace_concentration self;
     O2_amount_ratio := O2_amount_ratio self;
     data := d |}.

(** *** Methods: state and exceptions

    A method takes [self], and returns or raises, with [self] as it left
    it either way. *)
Definition method (A : Type) : Type := Tank -> exc A * Tank.

Definition mret {A : Type} (a : A) : method A := fun self => (Val a, self).

Definition mbind {A B : Type} (m : method A) (k : A -> method B)
  : method B :=
  fun self =>
    match m self with
    | (Val a, self') => k a self'
    | (Err e, self') => (Err e, self')
    end.

(** Evaluate an expression over [self]. *)
Definition eval {A : Type} (e : Tank -> exc A) : method A :=
  fun self => (e self, self).

(** [self.a = e]: [e] is evaluated first; when it raises, nothing is
    assigned. *)
Definition assign (a : attr) (e : Tank -> exc T) : method unit :=
  mbind (eval e) (fun v self => (Val tt, setattr a v self)).

Definition ifm {A : Type} (c : Tank -> bool) (m1 m2 : method A)
  : method A :=
  fun self => if c self then m1 self else m2 self.

(** The state a method leaves, and what it returned or raised. *)
Definition state_after {A : Type} (r : exc A * Tank) : Tank := snd r.
End TankModel.

Arguments Tank T : clear implicits.
Arguments DataFrame T : clear implicits.
Arguments method T A : clear implicits.

Declare Scope method_scope.
Delimit Scope method_scope with method.
Notation "x <- m ;; k" := (mbind m (fun x => k))
(at level 61, m at next level, right associativity) : method_scope.
Notation "m ;; k" := (mbind m (fun _ => k))
(at level 61, right associativity) : method_scope.
Notation "a ::= e" := (assign a (fun self => Val (e self)))
(at level 60, no associativity) : method_scope.
Notation "a ::=? e" := (assign a e)
(at level 60, no associativity) : method_scope.

Section TankMethods.
Context {T : Type} `{PyFloat T} `{NumPy T}.
Local Open Scope py_scope.
Local Open Scope method_scope.

(** [Tank.get_CO2_values_from_conc] (lines 96-108). *)
Definition get_CO2_values_from_conc : method T unit :=
  a_CO2_water_amount ::=
    (fun self => CO2_water_concentration self * volume self) ;;
  a_CO2_headspace_amount ::=
    (fun self => (CO2_ratio * CO2_water_concentration self)
                 * headspace self) ;;
  a_CO2_total_amount ::=
    (fun self => CO2_water_amount self + CO2_headspace_amount self) ;;
  a_CO2_total_concentration ::=?
    (fun self => pdiv (CO2_total_amount self)
                      (volume self + headspace self)) ;;
  ifm (fun self => headspace self >? py_int 0)
    (a_CO2_headspace_concentration ::=?
       (fun self => pdiv (CO2_headspace_amount self) (headspace self)))
    (a_CO2_headspace_concentration ::= (fun _ => pnan)).

(** [Tank.get_O2_values_from_conc] (lines 112-126). *)
Definition get_O2_values_from_conc : method T unit :=
  a_O2_water_amount ::=
    (fun self => O2_water_concentration self * volume self) ;;
  a_O2_headspace_amount ::=
    (fun self => (O2_ratio * O2_water_concentration self)
                 * headspace self) ;;
  a_O2_total_amount ::=
    (fun self => O2_water_amount self + O2_headspace_amount self) ;;
  a_O2_total_concentration ::=?
    (fun self => pdiv (O2_total_amount self)
                      (volume self + headspace self)) ;;
  ifm (fun self => headspace self >? py_int 0)
    (a_O2_headspace_concentration ::=?
       (fun self => pdiv (O2_headspace_amount self) (headspace self)))
    (a_O2_headspace_concentration ::= (fun _ => pnan)) ;;
  a_O2_amount_ratio ::=?
    (fun self => pdiv (O2_headspace_amount self) (O2_water_amount self)).

(** [DataFrame.round(3)] on one cell, as numpy rounds to decimals:
    scale, round to the nearest integer, scale back. *)
Definition round3 (x : T) : T := pquo (prnt (x * py_int 1000)) (py_int 1000).

(** The table [data_to_df] builds from the attributes and the pH of the
    water. *)
Definition table (self : Tank T) (pH : T) : DataFrame T :=
  let headspace :=
    [CO2_headspace_concentration self; CO2_headspace_amount self;
     O2_headspace_concentration self; O2_headspace_amount self; pnan] in
  let water :=
    [CO2_water_concentration self; CO2_water_amount self;
     O2_water_concentration self; O2_water_amount self; pH] in
  let total :=
    [CO2_total_concentration self; CO2_total_amount self;
     O2_total_concentration self; O2_total_amount self; pnan] in
  map (map round3) [headspace; water; total].

(** [Tank.data_to_df] (lines 128-148). *)
Definition data_to_df : method T unit :=
  pH <- eval (fun self =>
                Utils.CO2_to_pH (CO2_water_concentration self) (KH self)
                  Utils.pK1_default Utils.pK2_default) ;;
  (fun self => (Val tt, set_data (table self pH) self)).

(** [Tank.__repr__] (lines 151-155); the result is the table that is
    then rendered as text. *)
Definition __repr__ : method T (DataFrame T) :=
  data_to_df ;;
  (fun self => (Val (data self), self)).

(** The local [CO2_produced] of [use_O2] (line 173). *)
Definition CO2_produced (O2_used RQ : T) : exc T :=
  (q <- pdiv (Utils.M_to_ppm RQ CO2_MW) (Utils.M_to_ppm (py_int 1) O2_MW) ;;
   Val (q * O2_used))%exc.

(** [Tank.use_O2] (lines 158-182). *)
Definition use_O2 (O2_used RQ : T) : method T unit :=
  a_O2_total_amount ::= (fun self => O2_total_amount self - O2_used) ;;
  ifm (fun self => O2_total_amount self <? py_int 0)
    (a_O2_total_amount ::= (fun self => O2_total_amount self + O2_used))
    (produced <- eval (fun _ => CO2_produced O2_used RQ) ;;
     a_CO2_total_amount ::= (fun self => CO2_total_amount self + produced) ;;
     a_O2_water_amount ::=?
       (fun self => pdiv (O2_total_amount self)
                         (py_int 1 + O2_mass_ratio self)) ;;
     a_O2_water_concentration ::=?
       (fun self => pdiv (O2_water_amount self) (volume self)) ;;
     get_O2_values_from_conc ;;
     a_CO2_water_amount ::=?
       (fun self => pdiv (CO2_total_amount self)
                         (py_int 1 + CO2_mass_ratio self)) ;;
     a_CO2_water_concentration ::=?
       (fun self => pdiv (CO2_water_amount self) (volume self)) ;;
     get_CO2_values_from_conc).

(** [RQ=1], the default of [use_O2]. *)
Definition RQ_default : T := py_int 1.

(** [Tank.__init__] (lines 70-94), on the object being built. *)
Definition __init__ (volume' headspace' KH' room_CO2_equilibrium
                     room_O2_equilibrium : T) : method T unit :=
  a_volume ::= (fun _ => volume') ;;
  a_headspace ::= (fun _ => headspace') ;;
  a_KH ::= (fun _ => KH') ;;
  a_CO2_mass_ratio ::=?
    (fun self => pdiv (CO2_density * headspace self)
                      (CO2_solubility * volume self)) ;;
  a_O2_mass_ratio ::=?
    (fun self => pdiv (O2_density * headspace self)
                      (O2_solubility * volume self)) ;;
  a_CO2_water_concentration ::= (fun _ => room_CO2_equilibrium) ;;
  get_CO2_values_from_conc ;;
  a_O2_water_concentration ::= (fun _ => room_O2_equilibrium) ;;
  get_O2_values_from_conc ;;
  data_to_df.

(** The object [__init__] receives.  Each attribute is assigned by
    [__init__] before anything reads it, so the filler [d] never shows
    (lemma [new_Tank_filler] below). *)
Definition blank (d : T) : Tank T :=
  mkTank d d d d d d d d d d d d d d d d d d [].

(** [Tank(volume, headspace, KH, room_CO2_equilibrium,
    room_O2_equilibrium)]: the object when [__init__] returns, the
    exception when it raises. *)
Definition new_Tank_from (d : T) (volume' headspace' KH'
                   room_CO2_equilibrium room_O2_equilibrium : T)
  : exc (Tank T) :=
  match __init__ volume' headspace' KH' room_CO2_equilibrium
          room_O2_equilibrium (blank d) with
  | (Val _, self) => Val self
  | (Err e, _) => Err e
  end.

Definition new_Tank := new_Tank_from pnan.

Definition room_CO2_equilibrium_default : T := dec 58 2.
Definition room_O2_equilibrium_default : T := dec 824 2.
End TankMethods.

(** ** The two kinds of numbers *)

(** *** binary64: Python's [float] *)

Module Binary64.
Local Open Scope float_scope.

(** [float(z)] for an integer below [2^63] in size. *)
Definition of_Z (z : Z) : float :=
  match z with
  | Z0 => 0
  | Zpos _ => of_uint63 (Uint63.of_Z z)
  | Zneg p => - of_uint63 (Uint63.of_Z (Zpos p))
  end.

(** Rounding to the nearest integer, ties to even: below [2^52] in size,
    adding and subtracting [2^52] rounds the fraction away in the
    current (nearest-even) mode; from [2^52] on every float is an
    integer.  The result has the sign of [x], zeros included:
    [rint(-0.0)] and [rint(-0.3)] are [-0.0]. *)
Definition rint (x : float) : float :=
  let a := abs x in
  if a <? 0x1p52 then
    let r := (a + 0x1p52) - 0x1p52 in
    if get_sign x then - r else r
  else x.

#[export] Instance float_PyFloat : PyFloat float := {|
  padd := PrimFloat.add;
  psub := PrimFloat.sub;
  pmul := PrimFloat.mul;
  pquo := PrimFloat.div;
  pltb := PrimFloat.ltb;
  pis_zero := fun x => PrimFloat.eqb x 0;
  pof_int := of_Z;
  pnan := nan;
  prnt := rint
|}.
End Binary64.
Export Binary64.

(** *** Exact numbers: the reals and a NaN marker *)

Module Exact.
Local Open Scope R_scope.

Inductive xreal : Type :=
| Fin (r : R)
| NaN.

Definition lift2 (f : R -> R -> R) (x y : xreal) : xreal :=
  match x, y with
  | Fin a, Fin b => Fin (f a b)
  | _, _ => NaN
  end.

(** There is no infinity here: a quotient by zero, which numpy would
    return as an infinity or NaN, is NaN. *)
Definition xquo (x y : xreal) : xreal :=
  match x, y with
  | Fin a, Fin b => if Req_EM_T b 0 then NaN else Fin (a / b)
  | _, _ => NaN
  end.

(** Comparisons with NaN are false. *)
Definition xltb (x y : xreal) : bool :=
  match x, y with
  | Fin a, Fin b => if Rlt_dec a b then true else false
  | _, _ => false
  end.

Definition xis_zero (x : xreal) : bool :=
  match x with
  | Fin a => if Req_EM_T a 0 then true else false
  | NaN => false
  end.

Definition rnd_even (x : R) : R :=
  let n := Int_part x in
  let f := frac_part x in
  if Rlt_dec f (1 / 2) then IZR n
  else if Rlt_dec (1 / 2) f then IZR (n + 1)
  else if Z.even n then IZR n else IZR (n + 1).

Definition xrnt (x : xreal) : xreal :=
  match x with
  | Fin a => Fin (rnd_even a)
  | NaN => NaN
  end.

#[export] Instance xreal_PyFloat : PyFloat xreal := {|
  padd := lift2 Rplus;
  psub := lift2 Rminus;
  pmul := lift2 Rmult;
  pquo := xquo;
  pltb := xltb;
  pis_zero := xis_zero;
  pof_int := fun z => Fin (IZR z);
  pnan := NaN;
  prnt := xrnt
|}.

(** [np.log10] and [np.power] on positive arguments and bases; outside
    (where numpy answers NaN or an infinity) NaN. *)
Definition xlog10 (x : xreal) : xreal :=
  match x with
  | Fin a => if Rlt_dec 0 a then Fin (ln a / ln 10) else NaN
  | NaN => NaN
  end.

Definition xpower (x y : xreal) : xreal :=
  match x, y with
  | Fin a, Fin b => if Rlt_dec 0 a then Fin (Rpower a b) else NaN
  | _, _ => NaN
  end.

#[export] Instance xreal_NumPy : NumPy xreal := {|
  np_log10 := xlog10;
  np_power := xpower
|}.
End Exact.
Export Exact.

(** *** Unary minus and the exponential *)

#[export] Instance float_PyNeg : PyNeg float := {| pneg := PrimFloat.opp |}.

Definition xneg (x : xreal) : xreal :=
  match x with
  | Fin a => Fin (- a)
  | NaN => NaN
  end.

Definition xexp (x : xreal) : xreal :=
  match x with
  | Fin a => Fin (exp a)
  | NaN => NaN
  end.

#[export] Instance xreal_PyNeg : PyNeg xreal := {| pneg := xneg |}.
#[export] Instance xreal_NumPyExp : NumPyExp xreal := {| np_exp := xexp |}.


(** ** What is said of a tank *)

Section Properties.
Context {T : Type} `{PyFloat T}.
Local Open Scope py_scope.

(** Conservation: the total is the sum of the two parts, as values. *)
Definition conserved_CO2 (self : Tank T) : Prop :=
  CO2_total_amount self = CO2_water_amount self + CO2_headspace_amount self.

Definition conserved_O2 (self : Tank T) : Prop :=
  O2_total_amount self = O2_water_amount self + O2_headspace_amount self.

(** The partition identity [water * (1 + mass_ratio) == total]. *)
Definition partition_CO2 (self : Tank T) : Prop :=
  CO2_water_amount self * (py_int 1 + CO2_mass_ratio self)
  = CO2_total_amount self.

Definition partition_O2 (self : Tank T) : Prop :=
  O2_water_amount self * (py_int 1 + O2_mass_ratio self)
  = O2_total_amount self.

(** The mass ratios are the ones [__init__] computes (lines 84-85) from
    the volume and the headspace of the tank. *)
Definition ratios_from_geometry (self : Tank T) : Prop :=
  pdiv (CO2_density * headspace self) (CO2_solubility * volume self)
  = Val (CO2_mass_ratio self)
  /\ pdiv (O2_density * headspace self) (O2_solubility * volume self)
     = Val (O2_mass_ratio self).

(** The guard of [use_O2] (line 169), after the subtraction of line 167:
    the call is rejected when it holds. *)
Definition rejects (O2_used : T) (self : Tank T) : bool :=
  O2_total_amount self - O2_used <? py_int 0.

(** The CO2 attributes are the ones lines 101-108 derive from the water
    concentration, the volume and the headspace as they are now. *)
Definition derived_CO2 (self : Tank T) : Prop :=
  CO2_water_amount self = CO2_water_concentration self * volume self
  /\ CO2_headspace_amount self
     = CO2_ratio * CO2_water_concentration self * headspace self
  /\ CO2_total_amount self
     = CO2_water_amount self + CO2_headspace_amount self
  /\ pdiv (CO2_total_amount self) (volume self + headspace self)
     = Val (CO2_total_concentration self)
  /\ (if headspace self >? py_int 0
      then pdiv (CO2_headspace_amount self) (headspace self)
      else Val pnan)
     = Val (CO2_headspace_concentration self).

(** The same for O2 (lines 117-126), with the amount ratio. *)
Definition derived_O2 (self : Tank T) : Prop :=
  O2_water_amount self = O2_water_concentration self * volume self
  /\ O2_headspace_amount self
     = O2_ratio * O2_water_concentration self * headspace self
  /\ O2_total_amount self
     = O2_water_amount self + O2_headspace_amount self
  /\ pdiv (O2_total_amount self) (volume self + headspace self)
     = Val (O2_total_concentration self)
  /\ (if headspace self >? py_int 0
      then pdiv (O2_headspace_amount self) (headspace self)
      else Val pnan)
     = Val (O2_headspace_concentration self)
  /\ pdiv (O2_headspace_amount self) (O2_water_amount self)
     = Val (O2_amount_ratio self).

Context `{NumPy T}.

(** The stored table is the one [data_to_df] would build now:
    regenerating it changes nothing. *)
Definition up_to_date (self : Tank T) : Prop :=
  data_to_df self = (Val tt, self).

(** The states a tank goes through: built by the constructor, then any
    calls of [use_O2], each leaving the state it leaves whether it
    returns or raises. *)
Inductive reachable : Tank T -> Prop :=
| reach_new (v h kh c o : T) (self : Tank T) :
    new_Tank v h kh c o = Val self -> reachable self
| reach_use (O2_used RQ : T) (self : Tank T) :
    reachable self -> reachable (state_after (use_O2 O2_used RQ self)).

End Properties.

(** *** The scenario of the specification, in binary64 *)

(** [Tank(volume=100, headspace=50, KH=4)]. *)
Abbreviation tank_100_50_4 :=
  (new_Tank (py_int 100) (py_int 50) (py_int 4)
     room_CO2_equilibrium_default room_O2_equilibrium_default
   : exc (Tank float)).

Section Scenario.
Context {np : NumPy float}.

(** "After [use_O2(O2_used)] on that tank the partition identity holds
    for both gases." *)
Definition partition_after_use (O2_used : float) : Prop :=
  forall t0 t1 : Tank float,
    tank_100_50_4 = Val t0 ->
    rejects O2_used t0 = false ->
    use_O2 O2_used RQ_default t0 = (Val tt, t1) ->
    partition_CO2 t1 /\ partition_O2 t1.


End Scenario.

(** *** Exact arithmetic *)

(** The bicarbonate of a hardness in mol/l, as [KH_to_HCO3] computes it. *)
Definition HCO3_of (KH : R) : R :=
  (218 / 10 * KH * (1 / 1000) / (610168 / 10000))%R.

(** ** Proof support *)

(** Unfold the methods down to the arithmetic of the numbers. *)
Ltac run_methods :=
  cbv - [padd psub pmul pquo pltb pis_zero pof_int pnan prnt
         np_log10 np_power Z.pow].

(** Follow the tests of the code, one branch at a time. *)
Ltac step_tests :=
  repeat (run_methods;
          match goal with
          | E : ?c = _ |- context [if ?c then _ else _] => rewrite E
          | |- context [if ?c then _ else _] => destruct c eqn:?
          end).

Ltac by_cases := step_tests; run_methods; try congruence; auto.

(** Evaluate over the exact numbers, leaving the reals alone. *)
Ltac xrun :=
  cbv - [Rplus Rminus Rmult Rdiv Rinv Ropp IZR Req_EM_T Rlt_dec Rlt
         rnd_even ln Rpower HCO3_of].

(** Decide the tests of the exact numbers that linear arithmetic settles. *)
Ltac xtests :=
  repeat match goal with
  | |- context [Req_EM_T ?a ?b] =>
      destruct (Req_EM_T a b); try (exfalso; lra)
  | |- context [Rlt_dec ?a ?b] =>
      destruct (Rlt_dec a b); try (exfalso; lra)
  end.

(** Replace a tank by the value its construction or a call evaluates to
    in binary64. *)
Ltac evaluate E := vm_compute in E; injection E as <-.
Ltac evaluate2 E := vm_compute in E; injection E as <- <-.

(** One more conjunct settled by evaluation. *)
Ltac next := split; [vm_compute; reflexivity|].

(** Two floats that [==] tells apart are different. *)
Ltac floats_differ :=
  let E := fresh in
  intros E; vm_compute in E;
  match type of E with
  | _ = ?b => apply (f_equal (fun x => PrimFloat.eqb x b)) in E
  end;
  vm_compute in E; discriminate E.

(** Rewrite the tests already decided. *)
Ltac settle :=
  repeat match goal with
  | E : ?c = _ |- context [if ?c then _ else _] => rewrite E
  end.

(** Follow a run that returned: the tests of the run first, with the
    conclusion [G] set aside, then the state it returned. *)
Ltac follow_run :=
  match goal with
  | |- _ -> ?C =>
      let G := fresh "G" in
      set (G := C); step_tests; run_methods;
      let E := fresh in
      intros E; inversion E; subst; clear E;
      subst G; run_methods; settle; repeat split; congruence
  end.




(** ** What the methods do, for any numbers *)

Section Generic.
Context {T : Type} `{PyFloat T}.
Local Open Scope py_scope.

(** The derivation assigns the total as the sum before anything in it
    can raise. *)
Lemma get_CO2_conserved (self : Tank T) :
  conserved_CO2 (state_after (get_CO2_values_from_conc self)).
Proof. destruct self. unfold conserved_CO2. by_cases. Qed.

Lemma get_O2_conserved (self : Tank T) :
  conserved_O2 (state_after (get_O2_values_from_conc self)).
Proof. destruct self. unfold conserved_O2. by_cases. Qed.

(** Whatever the state, and whether the derivation returns or raises,
    it leaves the total of its gas equal to the sum of the water and
    headspace amounts. *)
Theorem derivation_conserves (self : Tank T) :
  conserved_CO2 (state_after (get_CO2_values_from_conc self))
  /\ conserved_O2 (state_after (get_O2_values_from_conc self)).
Proof. split; [apply get_CO2_conserved | apply get_O2_conserved]. Qed.

(** A rejected call: the subtraction and the addition on
    [O2_total_amount], and nothing else. *)
Theorem use_O2_rejected (O2_used RQ : T) (self : Tank T) :
  rejects O2_used self = true ->
  use_O2 O2_used RQ self
  = (Val tt,
     setattr a_O2_total_amount
       (O2_total_amount self - O2_used + O2_used) self).
Proof.
  unfold rejects. destruct self. run_methods. intros E.
  rewrite E. reflexivity.
Qed.

(** What an accepted call that returns has computed. *)
Lemma use_O2_accepted_inv (O2_used RQ : T) (self self' : Tank T) :
  rejects O2_used self = false ->
  use_O2 O2_used RQ self = (Val tt, self') ->
  exists produced wO cO wC cC : T,
    CO2_produced O2_used RQ = Val produced
    /\ pdiv (O2_total_amount self - O2_used) (py_int 1 + O2_mass_ratio self)
       = Val wO
    /\ pdiv wO (volume self) = Val cO
    /\ pdiv (CO2_total_amount self + produced)
            (py_int 1 + CO2_mass_ratio self) = Val wC
    /\ pdiv wC (volume self) = Val cC
    /\ O2_water_amount self' = cO * volume self
    /\ O2_headspace_amount self' = O2_ratio * cO * headspace self
    /\ O2_total_amount self'
       = cO * volume self + O2_ratio * cO * headspace self
    /\ CO2_water_amount self' = cC * volume self
    /\ CO2_headspace_amount self' = CO2_ratio * cC * headspace self
    /\ CO2_total_amount self'
       = cC * volume self + CO2_ratio * cC * headspace self
    /\ O2_mass_ratio self' = O2_mass_ratio self
    /\ CO2_mass_ratio self' = CO2_mass_ratio self.
Proof.
  unfold rejects. destruct self. run_methods. intros E. rewrite E.
  step_tests; run_methods; intros E'; inversion E'; subst; clear E';
    do 5 eexists; run_methods;
    repeat match goal with E : _ = false |- _ => rewrite E end;
    repeat split.
Qed.

(** [use_O2] never assigns the geometry, the mass ratios or the table. *)
Lemma use_O2_frame (O2_used RQ : T) (self : Tank T) :
  let self' := state_after (use_O2 O2_used RQ self) in
  volume self' = volume self /\ headspace self' = headspace self
  /\ KH self' = KH self
  /\ CO2_mass_ratio self' = CO2_mass_ratio self
  /\ O2_mass_ratio self' = O2_mass_ratio self
  /\ data self' = data self.
Proof. destruct self. by_cases; repeat split. Qed.

(** C8: calling the derivation operation ([get_CO2_values_from_conc] or
    [get_O2_values_from_conc]) a second time, with no mutation in
    between, does exactly what the first call did: the same outcome
    (returned, or the same exception) and the same value of every
    attribute.  It holds for every state and whatever the numbers are. *)
Theorem C8_derivation_idempotent (self : Tank T) :
  get_CO2_values_from_conc (state_after (get_CO2_values_from_conc self))
  = get_CO2_values_from_conc self
  /\ get_O2_values_from_conc (state_after (get_O2_values_from_conc self))
     = get_O2_values_from_conc self.
Proof. destruct self. split; by_cases. Qed.

Context `{NumPy T}.

(** The filler of the blank object never shows in a constructed tank. *)
Lemma new_Tank_filler (d1 d2 v h kh c o : T) :
  new_Tank_from d1 v h kh c o = new_Tank_from d2 v h kh c o.
Proof. by_cases. Qed.

Lemma new_Tank_conserved (v h kh c o : T) (self : Tank T) :
  new_Tank v h kh c o = Val self ->
  conserved_CO2 self /\ conserved_O2 self.
Proof.
  unfold conserved_CO2, conserved_O2.
  step_tests; run_methods; intros E; inversion E; subst; clear E;
    run_methods; split; reflexivity.
Qed.

Lemma new_Tank_ratios (v h kh c o : T) (self : Tank T) :
  new_Tank v h kh c o = Val self -> ratios_from_geometry self.
Proof.
  unfold ratios_from_geometry. destruct self. run_methods.
  destruct (pis_zero (pof_int 1449 * v)) eqn:E1; [discriminate|].
  destruct (pis_zero (pof_int 40 * v)) eqn:E2; [discriminate|].
  step_tests; run_methods; intros E; inversion E; subst; clear E;
    try congruence; split; reflexivity.
Qed.

(** The headspace attributes of a constructed tank. *)
Lemma new_Tank_headspace (v h kh c o : T) (self : Tank T) :
  new_Tank v h kh c o = Val self ->
  headspace self = h
  /\ CO2_headspace_amount self = CO2_ratio * c * h
  /\ O2_headspace_amount self = O2_ratio * o * h
  /\ ((h >? py_int 0) = false ->
      CO2_headspace_concentration self = pnan
      /\ O2_headspace_concentration self = pnan).
Proof.
  step_tests; run_methods; intros E; inversion E; subst; clear E;
    repeat split; congruence.
Qed.

(** The mass ratios of a tank stay the ones of its construction. *)
Lemma reachable_ratios (self : Tank T) :
  reachable self -> ratios_from_geometry self.
Proof.
  induction 1 as [v h kh c o self E | u rq self _ IH].
  - eapply new_Tank_ratios; exact E.
  - destruct (use_O2_frame u rq self) as (Ev & Eh & _ & Ec & Eo & _).
    unfold ratios_from_geometry in *. rewrite Ev, Eh, Ec, Eo. exact IH.
Qed.

(** What [__repr__] does: the table of the current attributes, stored
    and returned; nothing when the pH raises. *)
Lemma repr_spec (self : Tank T) :
  match Utils.CO2_to_pH (CO2_water_concentration self) (KH self)
          Utils.pK1_default Utils.pK2_default with
  | Val pH =>
      __repr__ self = (Val (table self pH), set_data (table self pH) self)
      /\ up_to_date (set_data (table self pH) self)
  | Err e => __repr__ self = (Err e, self)
  end.
Proof.
  destruct (Utils.CO2_to_pH (CO2_water_concentration self) (KH self)
              Utils.pK1_default Utils.pK2_default) as [pH|e] eqn:E.
  - split.
    + unfold __repr__, data_to_df, mbind, eval. rewrite E.
      destruct self; reflexivity.
    + unfold up_to_date, data_to_df, mbind, eval.
      destruct self; cbn [CO2_water_concentration KH set_data] in *.
      rewrite E. reflexivity.
  - unfold __repr__, data_to_df, mbind, eval. rewrite E. reflexivity.
Qed.

End Generic.

(** ** What the methods leave behind, for any numbers *)

Section Derivation.
Context {T : Type} `{PyFloat T}.
Local Open Scope py_scope.

(** A derivation ([get_CO2_values_from_conc], [get_O2_values_from_conc])
    that returns leaves the water concentration it found and every
    derived attribute of its gas as lines 98-108 (114-126) compute it
    from that concentration, the volume and the headspace: the amounts,
    the total, the total concentration, the headspace concentration (NaN
    without headspace) and, for O2, the amount ratio. *)
Theorem derivation_derives (self self' : Tank T) :
  (get_CO2_values_from_conc self = (Val tt, self') ->
   derived_CO2 self'
   /\ CO2_water_concentration self' = CO2_water_concentration self)
  /\ (get_O2_values_from_conc self = (Val tt, self') ->
      derived_O2 self'
      /\ O2_water_concentration self' = O2_water_concentration self).
Proof.
  unfold derived_CO2, derived_O2. destruct self. split; follow_run.
Qed.

(** After an accepted call of [use_O2] that returns, the attributes of
    both gases are consistent with each other: each derived attribute is
    the one the derivation computes from the redistributed water
    concentration. *)
Theorem use_O2_derives (O2_used RQ : T) (self self' : Tank T) :
  rejects O2_used self = false ->
  use_O2 O2_used RQ self = (Val tt, self') ->
  derived_CO2 self' /\ derived_O2 self'.
Proof.
  unfold rejects, derived_CO2, derived_O2. destruct self.
  run_methods. intros E. rewrite E. follow_run.
Qed.

(** Two accepted calls that agree on the geometry, the mass ratios, the
    table and the two totals they redistribute do the same: when the
    first returns, the second returns the same state. *)
Lemma use_O2_same_result (u1 u2 rq1 rq2 : T) (s1 s2 s1' : Tank T) :
  volume s1 = volume s2 -> headspace s1 = headspace s2 ->
  KH s1 = KH s2 ->
  CO2_mass_ratio s1 = CO2_mass_ratio s2 ->
  O2_mass_ratio s1 = O2_mass_ratio s2 ->
  data s1 = data s2 ->
  O2_total_amount s1 - u1 = O2_total_amount s2 - u2 ->
  CO2_total_amount s1
  + pquo (Utils.M_to_ppm rq1 CO2_MW) (Utils.M_to_ppm (py_int 1) O2_MW) * u1
  = CO2_total_amount s2
    + pquo (Utils.M_to_ppm rq2 CO2_MW) (Utils.M_to_ppm (py_int 1) O2_MW)
      * u2 ->
  rejects u1 s1 = false ->
  use_O2 u1 rq1 s1 = (Val tt, s1') ->
  use_O2 u2 rq2 s2 = (Val tt, s1').
Proof.
  destruct s1, s2. run_methods.
  intros -> -> -> -> -> -> EO EC Hacc. rewrite <- EO, Hacc.
  destruct (pis_zero (pof_int 1 * pof_int 32 * pof_int 1000));
    [discriminate|].
  run_methods. rewrite <- EC.
  step_tests; run_methods; intros E1;
    inversion E1; reflexivity.
Qed.

(** An accepted call of [use_O2] that returns overwrites every
    concentration and every derived amount: its result depends on the
    tank only through the volume, the headspace, [KH], the mass ratios,
    the table and the two total amounts.  On a tank that agrees on
    these the same call returns the same state. *)
Theorem use_O2_overwrites (O2_used RQ : T) (s1 s2 s1' : Tank T) :
  volume s1 = volume s2 -> headspace s1 = headspace s2 ->
  KH s1 = KH s2 ->
  CO2_mass_ratio s1 = CO2_mass_ratio s2 ->
  O2_mass_ratio s1 = O2_mass_ratio s2 ->
  data s1 = data s2 ->
  O2_total_amount s1 = O2_total_amount s2 ->
  CO2_total_amount s1 = CO2_total_amount s2 ->
  rejects O2_used s1 = false ->
  use_O2 O2_used RQ s1 = (Val tt, s1') ->
  use_O2 O2_used RQ s2 = (Val tt, s1').
Proof.
  intros Ev Eh Ek Ec Eo Ed EO EC.
  apply use_O2_same_result; try assumption.
  - rewrite EO. reflexivity.
  - rewrite EC. reflexivity.
Qed.

Context `{NumPy T}.

(** The water attributes of a constructed tank. *)
Lemma new_Tank_water (v h kh c o : T) (self : Tank T) :
  new_Tank v h kh c o = Val self ->
  volume self = v
  /\ CO2_water_amount self = c * v /\ O2_water_amount self = o * v.
Proof.
  step_tests; run_methods; intros E; inversion E; subst; clear E;
    repeat split; congruence.
Qed.

(** A tank the constructor returns holds the arguments as they were
    given (volume, headspace, KH, the two room concentrations as water
    concentrations), every derived attribute of both gases as the
    derivations compute it from them, and a table that is up to date. *)
Theorem new_Tank_derives (v h kh c o : T) (self : Tank T) :
  new_Tank v h kh c o = Val self ->
  volume self = v /\ headspace self = h /\ KH self = kh
  /\ CO2_water_concentration self = c /\ O2_water_concentration self = o
  /\ derived_CO2 self /\ derived_O2 self
  /\ up_to_date self.
Proof.
  unfold derived_CO2, derived_O2, up_to_date. follow_run.
Qed.

(** Asking for the table twice in a row gives the same answer and the
    same state as asking once: the same table, or the same exception
    with the tank untouched. *)
Theorem repr_idempotent (self : Tank T) :
  __repr__ (state_after (__repr__ self)) = __repr__ self.
Proof.
  pose proof (repr_spec self) as S.
  destruct (Utils.CO2_to_pH (CO2_water_concentration self) (KH self)
              Utils.pK1_default Utils.pK2_default) as [pH|e] eqn:E.
  - destruct S as [S U]. rewrite S. cbn [state_after snd].
    unfold up_to_date in U. unfold __repr__, mbind. rewrite U.
    destruct self; reflexivity.
  - rewrite S. cbn [state_after snd]. exact S.
Qed.

(** On Python numbers the functions with kinds are the plain ones. *)
Lemma CO2_to_pH_as_python (CO2 KH pK1 pK2 : T) :
  Utils.CO2_to_pH_as python_float python_float CO2 KH pK1 pK2
  = Utils.CO2_to_pH CO2 KH pK1 pK2.
Proof. reflexivity. Qed.

(** Where Python's division returns, numpy's returns the same: a value
    [CO2_to_pH] returns on Python numbers is the value it returns on
    arguments of any kind. *)
Lemma CO2_to_pH_as_returns (kCO2 kKH : num_kind) (CO2 KH pK1 pK2 x : T) :
  Utils.CO2_to_pH CO2 KH pK1 pK2 = Val x ->
  Utils.CO2_to_pH_as kCO2 kKH CO2 KH pK1 pK2 = Val x.
Proof.
  destruct kCO2, kKH; step_tests; run_methods; congruence.
Qed.

End Derivation.

(** ** binary64: the code as Python runs it *)

Local Open Scope float_scope.

(** The decimal literals of the source are the floats [dec] builds. *)
Lemma dec_literals :
  (dec 58 2 : float) = 0.58 /\ (dec 824 2 : float) = 8.24
  /\ (dec 218 1 : float) = 21.8 /\ (dec 610168 4 : float) = 61.0168
  /\ (dec 1 3 : float) = 1e-3
  /\ (dec 652 2 : float) = 6.52 /\ (dec 103 1 : float) = 10.3.
Proof. vm_compute. repeat split. Qed.

Lemma use_O2_rejected_witness :
  rejects 2 (blank 1 : Tank float) = true
  /\ use_O2 2 1 (blank 1 : Tank float)
     = (Val tt,
        setattr a_O2_total_amount
          (O2_total_amount (blank 1 : Tank float) - 2 + 2)%py (blank 1)).
Proof.
  split; [reflexivity|].
  apply (@use_O2_rejected float _ 2 1 (blank 1)). reflexivity.
Defined.








Section Binary64.
Context {np : NumPy float}.

(** C1: for [Tank(volume=100, headspace=50, KH=4)], the call
    [use_O2(10, RQ=1)] returns, leaves [O2_total_amount] smaller by
    exactly 10 (15553 before, 15543 after) and [CO2_total_amount] larger
    by exactly 13.75 = 10 * (44 / 32), the CO2 produced being
    [(M_to_ppm(RQ, CO2_MW) / M_to_ppm(1, O2_MW)) * O2_used]; all of it in
    binary64, as Python computes it. *)
Theorem C1_stoichiometry :
  exists t0 t1 : Tank float,
    tank_100_50_4 = Val t0
    /\ use_O2 (py_int 10) RQ_default t0 = (Val tt, t1)
    /\ O2_total_amount t0 = 15553 /\ O2_total_amount t1 = 15543
    /\ O2_total_amount t1 = O2_total_amount t0 - 10
    /\ O2_total_amount t0 - O2_total_amount t1 = 10
    /\ CO2_produced (py_int 10) RQ_default = Val 13.75
    /\ 10 * (44 / 32) = 13.75
    /\ CO2_total_amount t1 = CO2_total_amount t0 + 13.75
    /\ CO2_total_amount t1 - CO2_total_amount t0 = 13.75.
Proof.
  destruct tank_100_50_4 as [t0|] eqn:E0;
    [| vm_compute in E0; discriminate].
  destruct (use_O2 (py_int 10) RQ_default t0) as [r t1] eqn:E1.
  exists t0, t1. rewrite E1. evaluate E0. evaluate2 E1.
  repeat next. vm_compute. reflexivity.
Qed.

(** C9: [ppm_to_molar(61.0168, 61.0168)] returns exactly [1e-3] in
    binary64, with [ppm_to_molar(ppm, mw) = (ppm * 1e-3) / mw]. *)
Theorem C9_ppm_to_molar_units :
  Utils.ppm_to_molar 61.0168 61.0168 = Val 1e-3
  /\ (61.0168 * 1e-3) / 61.0168 = 1e-3.
Proof. split; vm_compute; reflexivity. Qed.

(** C2, at a failing input: on [Tank(100, 50, KH=4)], whose
    [O2_total_amount] is 15553, the call [use_O2(2.0**100)] is rejected
    by the guard, and the addition that should undo the subtraction
    leaves [O2_total_amount] at 0, since (15553 - 2^100) + 2^100 is 0 in
    binary64.  With ordinary amounts the value drifts in the last place:
    after [use_O2(1)] the total is 15551.999999999998, and a rejected
    [use_O2(40000)] leaves 15552. *)
Theorem C2_rollback_changes_total :
  exists t0 t1 t2 t3 : Tank float,
    tank_100_50_4 = Val t0
    /\ use_O2 0x1p100 RQ_default t0 = (Val tt, t1)
    /\ use_O2 1 RQ_default t0 = (Val tt, t2)
    /\ use_O2 40000 RQ_default t2 = (Val tt, t3)
    /\ O2_total_amount t0 = 15553
    /\ (0x1p100 >? O2_total_amount t0)%py = true
    /\ rejects 0x1p100 t0 = true
    /\ O2_total_amount t1 = 0
    /\ O2_total_amount t2 = 15551.999999999998
    /\ (40000 >? O2_total_amount t2)%py = true
    /\ rejects 40000 t2 = true
    /\ O2_total_amount t3 = 15552
    /\ t1 <> t0 /\ t3 <> t2.
Proof.
  destruct tank_100_50_4 as [t0|] eqn:E0;
    [| vm_compute in E0; discriminate].
  destruct (use_O2 0x1p100 RQ_default t0) as [r1 t1] eqn:E1.
  destruct (use_O2 1 RQ_default t0) as [r2 t2] eqn:E2.
  destruct (use_O2 40000 RQ_default t2) as [r3 t3] eqn:E3.
  exists t0, t1, t2, t3. rewrite E3.
  evaluate E0. evaluate2 E1. evaluate2 E2. evaluate2 E3.
  repeat next. split.
  - intros E. apply (f_equal (@O2_total_amount float)) in E. revert E.
    floats_differ.
  - intros E. apply (f_equal (@O2_total_amount float)) in E. revert E.
    floats_differ.
Qed.

(** C3, at failing inputs: on [Tank(100, 50, KH=4)], conserved when
    built, the rejected call [use_O2(2.0**100)] leaves
    [O2_total_amount] at 0 beside a water amount of 824 and a headspace
    amount of 14729; and the call [use_O2(15553)], which raises
    [ZeroDivisionError] half way, leaves [CO2_total_amount] raised by the
    CO2 produced beside the water and headspace amounts of before. *)
Theorem C3_conservation_lost :
  exists t0 t1 t2 : Tank float,
    tank_100_50_4 = Val t0
    /\ reachable t1 /\ reachable t2
    /\ use_O2 0x1p100 RQ_default t0 = (Val tt, t1)
    /\ use_O2 15553 RQ_default t0 = (Err ZeroDivisionError, t2)
    /\ conserved_CO2 t0 /\ conserved_O2 t0
    /\ O2_total_amount t1 = 0
    /\ O2_water_amount t1 + O2_headspace_amount t1 = 15553
    /\ (CO2_total_amount t2
        =? CO2_water_amount t2 + CO2_headspace_amount t2) = false
    /\ ~ conserved_O2 t1 /\ ~ conserved_CO2 t2.
Proof.
  destruct tank_100_50_4 as [t0|] eqn:E0;
    [| vm_compute in E0; discriminate].
  assert (R0 : reachable t0) by (eapply reach_new; exact E0).
  pose proof (reach_use 0x1p100 RQ_default R0) as R1.
  pose proof (reach_use 15553 RQ_default R0) as R2.
  destruct (use_O2 0x1p100 RQ_default t0) as [r1 t1] eqn:E1.
  destruct (use_O2 15553 RQ_default t0) as [r2 t2] eqn:E2.
  exists t0, t1, t2.
  split; [reflexivity|]. split; [exact R1|]. split; [exact R2|].
  clear R0 R1 R2. evaluate E0. evaluate2 E1. evaluate2 E2.
  unfold conserved_CO2, conserved_O2.
  repeat next.
  split; floats_differ.
Qed.

(** C10, at the failing input: on [Tank(100, 50, KH=4)] the call
    [use_O2(15553)], with [O2_used] equal to [O2_total_amount], passes
    the guard and sets the O2 water, headspace and total amounts to 0,
    and then the division 0.0 / 0.0 that computes [O2_amount_ratio]
    raises [ZeroDivisionError]: [O2_amount_ratio] keeps the 17.875 it
    had, and the CO2 side is left half updated ([CO2_total_amount]
    raised, [CO2_water_amount] not redistributed). *)
Theorem C10_exact_depletion_raises :
  exists t0 t1 : Tank float,
    tank_100_50_4 = Val t0
    /\ use_O2 15553 RQ_default t0 = (Err ZeroDivisionError, t1)
    /\ O2_total_amount t0 = 15553
    /\ rejects 15553 t0 = false
    /\ O2_water_amount t1 = 0 /\ O2_headspace_amount t1 = 0
    /\ O2_total_amount t1 = 0
    /\ pdiv (O2_headspace_amount t1) (O2_water_amount t1)
       = Err ZeroDivisionError
    /\ O2_amount_ratio t1 = 17.875
    /\ O2_amount_ratio t1 = O2_amount_ratio t0
    /\ CO2_total_amount t1 = CO2_total_amount t0 + 44 / 32 * 15553
    /\ CO2_water_amount t1 = CO2_water_amount t0.
Proof.
  destruct tank_100_50_4 as [t0|] eqn:E0;
    [| vm_compute in E0; discriminate].
  destruct (use_O2 15553 RQ_default t0) as [r t1] eqn:E1.
  exists t0, t1. evaluate E0. evaluate2 E1.
  repeat next. vm_compute. reflexivity.
Qed.

(** C5, at a failing input: [use_O2] never assigns the table, whatever
    the call and the tank; [__init__] runs [data_to_df] after deriving
    the attributes, [use_O2] derives them and does not.  On
    [Tank(100, 50, KH=4)], whose table is up to date when built, the
    call [use_O2(10)] returns and leaves the table it found: the O2 of
    the water is 823.4701986754967 mg in the attributes and still 824 in
    the stored table, where a rebuilt table says 823.47. *)
Theorem C5_report_stale_after_use :
  (forall (O2_used RQ : float) (self : Tank float),
     data (state_after (use_O2 O2_used RQ self)) = data self)
  /\ exists t0 t1 t2 : Tank float,
       tank_100_50_4 = Val t0
       /\ use_O2 10 RQ_default t0 = (Val tt, t1)
       /\ data_to_df t1 = (Val tt, t2)
       /\ up_to_date t0
       /\ data t1 = data t0
       /\ O2_water_amount t0 = 824
       /\ O2_water_amount t1 = 823.4701986754967
       /\ nth 3 (nth 1 (data t1) []) nan = 824
       /\ nth 3 (nth 1 (data t2) []) nan = 823.47
       /\ ~ up_to_date t1.
Proof.
  split; [intros u rq self; apply use_O2_frame|].
  destruct tank_100_50_4 as [t0|] eqn:E0;
    [| vm_compute in E0; discriminate].
  destruct (use_O2 10 RQ_default t0) as [r1 t1] eqn:E1.
  destruct (data_to_df t1) as [r2 t2] eqn:E2.
  exists t0, t1, t2. unfold up_to_date. rewrite E2.
  evaluate E0. evaluate2 E1. evaluate2 E2.
  repeat next.
  intros Hf.
  apply (f_equal (fun r => nth 3 (nth 1 (data (snd r)) []) nan)) in Hf.
  revert Hf. floats_differ.
Qed.


End Binary64.



(** C4, counterexample: whatever numpy's functions return, on
    [Tank(100, 50, KH=4)] the call [use_O2(1)] is accepted and returns,
    and then [O2_water_amount * (1 + O2_mass_ratio)] is 15552 while
    [O2_total_amount] is 15551.999999999998. *)
Lemma C4_partition_rounding_counterexample :
  ~ exists np : NumPy float, partition_after_use 1.
Proof.
  intros [np Hc].
  destruct tank_100_50_4 as [t0|] eqn:E0;
    [| vm_compute in E0; discriminate].
  destruct (use_O2 1 RQ_default t0) as [r t1] eqn:E1.
  assert (Hacc : rejects 1 t0 = false)
    by (clear - E0; evaluate E0; vm_compute; reflexivity).
  assert (Hr : r = Val tt)
    by (clear - E0 E1; evaluate E0; evaluate2 E1; reflexivity).
  subst r. destruct (Hc t0 t1 E0 Hacc E1) as [_ HO].
  clear Hc Hacc. revert HO. unfold partition_O2.
  evaluate E0. evaluate E1. floats_differ.
Qed.

(** *** When the code raises *)




Section Raises.
Context {np : NumPy float}.

(** [CO2_to_pH] raises [ZeroDivisionError] exactly when [CO2] and [KH]
    are both Python numbers and [CO2 / 44000] is a zero (a CO2 of zero,
    or one so small that the quotient underflows), whatever the hardness
    and the pK.  In every other case (a quotient that is not zero, or a
    numpy scalar for [CO2] or [KH], as the value [pH_to_CO2] returns is)
    it returns
    [pK1 + log10(21.8 * KH * 1e-3 / 61.0168 / (CO2 / 44000))], the
    quotient by a zero being numpy's infinity or NaN. *)
Theorem CO2_to_pH_raises_iff (kCO2 kKH : num_kind)
    (CO2 KH pK1 pK2 : float) :
  (Utils.CO2_to_pH_as kCO2 kKH CO2 KH pK1 pK2 = Err ZeroDivisionError
   <-> kCO2 = python_float /\ kKH = python_float
       /\ (CO2 / 44000 =? 0) = true)
  /\ (kCO2 = numpy_float64 \/ kKH = numpy_float64
      \/ (CO2 / 44000 =? 0) = false ->
      Utils.CO2_to_pH_as kCO2 kKH CO2 KH pK1 pK2
      = Val (pK1 + np_log10 (21.8 * KH * 1e-3 / 61.0168 / (CO2 / 44000)))).
Proof.
  destruct (CO2 / 44000 =? 0) eqn:E; vm_compute in E;
    destruct kCO2, kKH; vm_compute; rewrite ?E;
    (split; [split|]);
    try reflexivity; try discriminate; try tauto;
    try (intros (A & B & C); discriminate);
    try (intros [A|[A|A]]; discriminate).
Qed.



(** [data_to_df] either returns, having replaced the table and nothing
    else by one of three rows (headspace, water, total) of five cells
    whose pH cell is NaN in the headspace and total rows; or raises,
    which it does only when the water CO2 concentration divided by 44000
    is a zero, and then the tank is as it was. *)
Theorem data_to_df_report (self : Tank float) :
  match data_to_df self with
  | (Val _, self') =>
      self' = set_data (data self') self
      /\ length (data self') = 3%nat
      /\ Forall (fun row => length row = 5%nat) (data self')
      /\ nth 4 (nth 0 (data self') []) 0 = nan
      /\ nth 4 (nth 2 (data self') []) 0 = nan
  | (Err e, self') =>
      self' = self
      /\ (CO2_water_concentration self / 44000 =? 0) = true
  end.
Proof.
  unfold data_to_df, mbind, eval.
  destruct (Utils.CO2_to_pH (CO2_water_concentration self) (KH self)
              Utils.pK1_default Utils.pK2_default) as [pH|[]] eqn:E.
  - unfold set_data at 1 3 4 5 6. cbn [data]. unfold table.
    cbn [map length nth].
    repeat split; try (vm_compute; reflexivity).
    repeat constructor.
  - split; [reflexivity|].
    destruct (CO2_water_concentration self / 44000 =? 0) eqn:Ez;
      [reflexivity|].
    exfalso. revert E. vm_compute in Ez. vm_compute. rewrite Ez.
    discriminate.
Qed.

End Raises.





(** *** The derived attributes on the scenario *)

Lemma derivation_derives_witness :
  exists s1 s2 : Tank float,
    get_CO2_values_from_conc (blank 1) = (Val tt, s1)
    /\ get_O2_values_from_conc (blank 1) = (Val tt, s2)
    /\ derived_CO2 s1 /\ derived_O2 s2.
Proof.
  destruct (get_CO2_values_from_conc (blank 1 : Tank float))
    as [r1 s1] eqn:E1.
  destruct (get_O2_values_from_conc (blank 1 : Tank float))
    as [r2 s2] eqn:E2.
  assert (H1 : r1 = Val tt) by (clear - E1; evaluate2 E1; reflexivity).
  assert (H2 : r2 = Val tt) by (clear - E2; evaluate2 E2; reflexivity).
  subst r1 r2. exists s1, s2.
  split; [reflexivity|]. split; [reflexivity|].
  destruct (derivation_derives (blank 1) s1) as [D1 _].
  destruct (derivation_derives (blank 1) s2) as [_ D2].
  split; [apply D1; exact E1 | apply D2; exact E2].
Defined.

Lemma new_Tank_derives_witness :
  exists (np : NumPy float) (self : Tank float),
    tank_100_50_4 = Val self
    /\ volume self = 100 /\ headspace self = 50 /\ KH self = 4
    /\ CO2_water_concentration self = 0.58
    /\ O2_water_concentration self = 8.24
    /\ derived_CO2 self /\ derived_O2 self /\ up_to_date self.
Proof.
  exists {| np_log10 := fun x => x; np_power := fun _ y => y |}.
  destruct tank_100_50_4 as [t0|] eqn:E0;
    [| vm_compute in E0; discriminate].
  exists t0. split; [reflexivity|].
  apply (new_Tank_derives _ _ _ _ _ E0).
Defined.

Lemma use_O2_derives_witness :
  exists (np : NumPy float) (t0 t1 : Tank float),
    tank_100_50_4 = Val t0
    /\ use_O2 10 1 t0 = (Val tt, t1)
    /\ derived_CO2 t1 /\ derived_O2 t1.
Proof.
  exists {| np_log10 := fun x => x; np_power := fun _ y => y |}.
  destruct tank_100_50_4 as [t0|] eqn:E0;
    [| vm_compute in E0; discriminate].
  destruct (use_O2 10 1 t0) as [r t1] eqn:E1.
  assert (Hacc : rejects 10 t0 = false)
    by (clear - E0; evaluate E0; vm_compute; reflexivity).
  assert (Hr : r = Val tt)
    by (clear - E0 E1; evaluate E0; evaluate2 E1; reflexivity).
  subst r. exists t0, t1.
  split; [reflexivity|]. split; [exact E1|].
  exact (use_O2_derives 10 1 t0 Hacc E1).
Defined.

Lemma use_O2_overwrites_witness :
  exists (np : NumPy float) (t0 t1 : Tank float),
    tank_100_50_4 = Val t0
    /\ use_O2 10 1 t0 = (Val tt, t1)
    /\ use_O2 10 1
         (setattr a_CO2_water_concentration 0
            (setattr a_O2_headspace_amount 1 t0))
       = (Val tt, t1).
Proof.
  exists {| np_log10 := fun x => x; np_power := fun _ y => y |}.
  destruct tank_100_50_4 as [t0|] eqn:E0;
    [| vm_compute in E0; discriminate].
  destruct (use_O2 10 1 t0) as [r t1] eqn:E1.
  assert (Hacc : rejects 10 t0 = false)
    by (clear - E0; evaluate E0; vm_compute; reflexivity).
  assert (Hr : r = Val tt)
    by (clear - E0 E1; evaluate E0; evaluate2 E1; reflexivity).
  subst r. exists t0, t1.
  split; [reflexivity|]. split; [exact E1|].
  revert Hacc E1.
  apply (@use_O2_overwrites float _ 10 1 t0
           (setattr a_CO2_water_concentration 0
              (setattr a_O2_headspace_amount 1 t0)) t1);
    destruct t0; reflexivity.
Defined.

(** ** Exact arithmetic: the same code without rounding *)

Local Open Scope R_scope.

Lemma pdiv_fin (a b : R) :
  b <> 0 -> pdiv (Fin a) (Fin b) = Val (Fin (a / b)).
Proof. intros Hb. xrun. xtests. reflexivity. Qed.

Lemma xquo_fin (a b : R) : b <> 0 -> xquo (Fin a) (Fin b) = Fin (a / b).
Proof. intros Hb. xrun. xtests. reflexivity. Qed.

Lemma xlog10_fin (a : R) : 0 < a -> xlog10 (Fin a) = Fin (ln a / ln 10).
Proof. intros Ha. xrun. xtests. reflexivity. Qed.

Lemma xpower10_fin (b : R) : xpower (Fin 10) (Fin b) = Fin (Rpower 10 b).
Proof. xrun. xtests. reflexivity. Qed.

(** The algebra behind the partition identity: with the mass ratio
    [d * h / (s * v)], the water amount [w = tot / (1 + ratio)] and the
    concentration [c = w / v], the water amount derived again from [c]
    times [1 + ratio] is the total derived again from [c]. *)
Lemma partition_key (d s : R) (h v tot mr w c : xreal) :
  s <> 0 ->
  pdiv (Fin d * h)%py (Fin s * v)%py = Val mr ->
  pdiv tot (Fin 1 + mr)%py = Val w ->
  pdiv w v = Val c ->
  ((c * v) * (Fin 1 + mr) = c * v + (pquo (Fin d) (Fin s) * c) * h)%py.
Proof.
  intros Hs. unfold pdiv.
  destruct h as [h|], v as [v|], tot as [tot|]; cbn;
    xtests; intros E1; inversion E1; subst; clear E1; cbn;
    xtests; intros E2; inversion E2; subst; clear E2; cbn;
    xtests; intros E3; inversion E3; subst; clear E3; cbn;
    xtests; try reflexivity.
  f_equal. field. repeat split; try assumption.
  intros E. match goal with n : 1 + _ <> 0 |- _ => apply n end.
  replace (1 + d * h / (s * v)) with ((s * v + d * h) / (s * v))
    by (field; split; assumption).
  rewrite E. unfold Rdiv. ring.
Qed.

(** C4, as it holds: in exact arithmetic, after every accepted call of
    [use_O2] that returns, on a tank built by the constructor and
    changed by calls of [use_O2] only, [water_amount * (1 + mass_ratio)]
    is [total_amount] for both gases, the mass ratios being the ones
    computed at construction. *)
Theorem C4_partition_exact (O2_used RQ : xreal) (self self' : Tank xreal) :
  reachable self ->
  rejects O2_used self = false ->
  use_O2 O2_used RQ self = (Val tt, self') ->
  partition_CO2 self' /\ partition_O2 self'.
Proof.
  intros Hr Hacc Hrun.
  destruct (reachable_ratios Hr) as [HC HO].
  edestruct (@use_O2_accepted_inv xreal _ O2_used RQ self self')
    as (p & wO & cO & wC & cC & _ & HwO & HcO & HwC & HcC
        & E1 & E2 & E3 & E4 & E5 & E6 & E7 & E8);
    [exact Hacc | exact Hrun |].
  unfold partition_CO2, partition_O2.
  rewrite E1, E3, E4, E6, E7, E8. split.
  - eapply (@partition_key 1964 1449);
      [lra | exact HC | exact HwC | exact HcC].
  - eapply (@partition_key 1430 40);
      [lra | exact HO | exact HwO | exact HcO].
Qed.

Lemma C4_partition_exact_witness :
  exists self self' : Tank xreal,
    new_Tank (py_int 100) (py_int 50) (py_int 4)
      room_CO2_equilibrium_default room_O2_equilibrium_default = Val self
    /\ use_O2 (py_int 10) RQ_default self = (Val tt, self')
    /\ partition_CO2 self' /\ partition_O2 self'.
Proof.
  assert (E0 : exists self : Tank xreal,
             new_Tank (py_int 100) (py_int 50) (py_int 4)
               room_CO2_equilibrium_default room_O2_equilibrium_default
             = Val self).
  { xrun. xtests. eexists. reflexivity. }
  destruct E0 as [self E0]. exists self.
  assert (Hr : reachable self) by (eapply reach_new; exact E0).
  assert (Hacc : rejects (py_int 10) self = false).
  { revert E0. xrun. xtests. intros E0. inversion E0; subst; clear E0.
    xrun. xtests. reflexivity. }
  assert (E1 : exists self',
             use_O2 (py_int 10) RQ_default self = (Val tt, self')).
  { revert E0. xrun. xtests. intros E0. inversion E0; subst; clear E0.
    xrun. xtests. eexists. reflexivity. }
  destruct E1 as [self' E1]. exists self'.
  split; [exact E0|]. split; [exact E1|].
  eapply C4_partition_exact; [exact Hr | exact Hacc | exact E1].
Defined.

(** *** The pH round trip *)

Lemma ln10_pos : 0 < ln 10.
Proof. rewrite <- ln_1. apply ln_increasing; lra. Qed.

Lemma Rpower10_ln (x : R) : 0 < x -> Rpower 10 (ln x / ln 10) = x.
Proof.
  intros Hx. unfold Rpower.
  replace (ln x / ln 10 * ln 10) with (ln x)
    by (field; apply Rgt_not_eq, ln10_pos).
  apply exp_ln, Hx.
Qed.

Lemma ln_Rpower10 (y : R) : ln (Rpower 10 y) = y * ln 10.
Proof. unfold Rpower. apply ln_exp. Qed.

Lemma Rpower10_pos (y : R) : 0 < Rpower 10 y.
Proof. unfold Rpower. apply exp_pos. Qed.

(** With [h] the bicarbonate, [a] and [k] the two pK: going from a pH
    [p] to CO2 with the corrected bicarbonate and back with the
    uncorrected one adds [log10 (1 + 10^(p - k))]. *)
Lemma round_trip_real (a p k h : R) :
  0 < h ->
  let r := Rpower 10 (k - p) in
  let hc := h * r / (1 + r) in
  let C := Rpower 10 (a + ln hc / ln 10 - p) * 44 * 1000 in
  a + ln (h / (C / (44 * 1000))) / ln 10
  = p + ln (1 + Rpower 10 (p - k)) / ln 10.
Proof.
  intros Hh r hc C.
  pose proof ln10_pos as HL.
  pose proof (Rpower10_pos (k - p)) as Hr. fold r in Hr.
  pose proof (Rpower10_pos (p - k)) as Hr'.
  pose proof (Rpower10_pos (a - p)) as HE.
  assert (Hhc : 0 < hc).
  { unfold hc. apply Rdiv_lt_0_compat; [apply Rmult_lt_0_compat|]; lra. }
  assert (Hrr : r * Rpower 10 (p - k) = 1).
  { unfold r. rewrite <- Rpower_plus.
    replace (k - p + (p - k)) with 0 by ring. apply Rpower_O. lra. }
  assert (EC : C / (44 * 1000) = Rpower 10 (a - p) * hc).
  { unfold C. replace (a + ln hc / ln 10 - p) with (a - p + ln hc / ln 10)
      by ring.
    rewrite Rpower_plus, (@Rpower10_ln hc Hhc). field. }
  rewrite EC.
  assert (Eq : h / (Rpower 10 (a - p) * hc)
               = (1 + Rpower 10 (p - k)) * / Rpower 10 (a - p)).
  { unfold hc.
    assert (Er : 1 + r = r * (1 + Rpower 10 (p - k)))
      by (rewrite Rmult_plus_distr_l, Hrr; ring).
    rewrite Er. field. repeat split; lra. }
  rewrite Eq. rewrite ln_mult; [| lra | apply Rinv_0_lt_compat; lra].
  rewrite ln_Rinv by lra. rewrite ln_Rpower10. field. lra.
Qed.

Lemma KH_to_HCO3_exact (KH : R) :
  Utils.KH_to_HCO3 (Fin KH) = Val (Fin (HCO3_of KH)).
Proof. xrun. xtests. reflexivity. Qed.

Lemma HCO3_of_pos (KH : R) : 0 < KH -> 0 < HCO3_of KH.
Proof. unfold HCO3_of. intros. lra. Qed.

Lemma pH_to_CO2_exact (pH KH pK1 pK2 : R) :
  0 < KH ->
  let r := Rpower 10 (pK2 - pH) in
  let hc := HCO3_of KH * r / (1 + r) in
  Utils.pH_to_CO2 (Fin pH) (Fin KH) (Fin pK1) (Fin pK2)
  = Val (Fin (Rpower 10 (pK1 + ln hc / ln 10 - pH) * 44 * 1000)).
Proof.
  intros HK r hc.
  pose proof (@HCO3_of_pos KH HK) as Hh.
  pose proof (Rpower10_pos (pK2 - pH)) as Hr. fold r in Hr.
  assert (Hhc : 0 < hc).
  { unfold hc. apply Rdiv_lt_0_compat; [apply Rmult_lt_0_compat|]; lra. }
  unfold Utils.pH_to_CO2. rewrite KH_to_HCO3_exact.
  unfold Utils.get_HCO3_from_alk.
  cbn [exc_bind py_int pof_int padd psub pmul pquo np_power np_log10
       xreal_PyFloat xreal_NumPy lift2].
  rewrite xpower10_fin. fold r. cbn [lift2].
  rewrite xquo_fin by lra. fold hc.
  rewrite (@xlog10_fin hc Hhc). cbn [lift2].
  rewrite xpower10_fin. reflexivity.
Qed.

Lemma CO2_to_pH_exact (CO2 KH pK1 : R) (pK2 : xreal) :
  0 < KH -> 0 < CO2 ->
  Utils.CO2_to_pH (Fin CO2) (Fin KH) (Fin pK1) pK2
  = Val (Fin (pK1 + ln (HCO3_of KH / (CO2 / (44 * 1000))) / ln 10)).
Proof.
  intros HK HC.
  pose proof (@HCO3_of_pos KH HK) as Hh.
  unfold Utils.CO2_to_pH. rewrite KH_to_HCO3_exact.
  cbn [exc_bind py_int pof_int padd psub pmul pquo np_power np_log10
       xreal_PyFloat xreal_NumPy lift2].
  rewrite pdiv_fin by lra. cbn [exc_bind].
  assert (0 < CO2 / (44 * 1000)) by (apply Rdiv_lt_0_compat; lra).
  rewrite pdiv_fin by lra. cbn [exc_bind].
  rewrite xlog10_fin by (apply Rdiv_lt_0_compat; lra).
  reflexivity.
Qed.

Lemma pK_defaults :
  Utils.pK1_default = Fin (652 / 100) /\ Utils.pK2_default = Fin (103 / 10).
Proof. split; xrun; xtests; reflexivity. Qed.

(** C6: for every pH and every hardness [KH > 0], in exact arithmetic
    [pH_to_CO2(pH, KH)] returns a CO2 concentration and
    [CO2_to_pH] of it (same [KH], default pK) returns
    [pH + log10 (1 + 10^(pH - 10.3))], which is above the pH started
    from: the way back takes the bicarbonate of the hardness as it is,
    where the way forward scales it by [r / (1 + r)], [r = 10^(10.3 - pH)]. *)
Theorem C6_round_trip_not_exact (pH KH : R) :
  0 < KH ->
  exists CO2 pH' : R,
    Utils.pH_to_CO2 (Fin pH) (Fin KH) Utils.pK1_default Utils.pK2_default
    = Val (Fin CO2)
    /\ Utils.CO2_to_pH (Fin CO2) (Fin KH)
         Utils.pK1_default Utils.pK2_default
       = Val (Fin pH')
    /\ pH' = pH + ln (1 + Rpower 10 (pH - 103 / 10)) / ln 10
    /\ pH < pH'.
Proof.
  intros HK. destruct pK_defaults as [-> ->].
  eexists. eexists.
  split; [apply pH_to_CO2_exact; exact HK|].
  split.
  { apply CO2_to_pH_exact; [exact HK|].
    repeat apply Rmult_lt_0_compat; try lra. apply Rpower10_pos. }
  assert (E : 652 / 100
   + ln (HCO3_of KH /
       (Rpower 10 (652 / 100
          + ln (HCO3_of KH * Rpower 10 (103 / 10 - pH)
                / (1 + Rpower 10 (103 / 10 - pH))) / ln 10 - pH)
        * 44 * 1000 / (44 * 1000))) / ln 10
   = pH + ln (1 + Rpower 10 (pH - 103 / 10)) / ln 10).
  { apply (@round_trip_real (652 / 100) pH (103 / 10) (HCO3_of KH)).
    apply HCO3_of_pos, HK. }
  split; [exact E|]. rewrite E.
  assert (0 < ln (1 + Rpower 10 (pH - 103 / 10)) / ln 10).
  { apply Rdiv_lt_0_compat; [|apply ln10_pos].
    rewrite <- ln_1. apply ln_increasing; [lra|].
    pose proof (Rpower10_pos (pH - 103 / 10)). lra. }
  lra.
Qed.

Lemma C6_round_trip_not_exact_witness :
  exists CO2 pH' : R,
    Utils.pH_to_CO2 (Fin 7) (Fin 4) Utils.pK1_default Utils.pK2_default
    = Val (Fin CO2)
    /\ Utils.CO2_to_pH (Fin CO2) (Fin 4)
         Utils.pK1_default Utils.pK2_default
       = Val (Fin pH')
    /\ pH' = 7 + ln (1 + Rpower 10 (7 - 103 / 10)) / ln 10
    /\ 7 < pH'.
Proof. apply (@C6_round_trip_not_exact 7 4). lra. Defined.

(** *** The rollback without rounding *)

(** In exact arithmetic the rejected call undoes its subtraction: every
    attribute is as before. *)
Theorem rejected_call_exact (a b : R) (RQ : xreal) (self : Tank xreal) :
  O2_total_amount self = Fin a ->
  a - b < 0 ->
  use_O2 (Fin b) RQ self = (Val tt, self).
Proof.
  intros Ea Hab. destruct self. cbn [O2_total_amount] in Ea. subst.
  xrun. xtests. replace (a - b + b) with a by ring. reflexivity.
Qed.

Lemma rejected_call_exact_witness :
  use_O2 (Fin 7) (Fin 1) (blank (Fin 5)) = (Val tt, blank (Fin 5)).
Proof. apply (@rejected_call_exact 5 7); [reflexivity | lra]. Defined.

(** *** Units and bicarbonate *)

(** [M_to_ppm] and [ppm_to_molar] are inverse to each other for a
    molecular weight that is not zero (mol/l to mg/l and back, mg/l to
    mol/l and back); with a molecular weight of zero [ppm_to_molar]
    raises. *)
Theorem units_round_trip (M ppm mw : R) :
  mw <> 0 ->
  Utils.ppm_to_molar (Utils.M_to_ppm (Fin M) (Fin mw)) (Fin mw)
  = Val (Fin M)
  /\ exc_bind (Utils.ppm_to_molar (Fin ppm) (Fin mw))
       (fun molar => Val (Utils.M_to_ppm molar (Fin mw)))
     = Val (Fin ppm)
  /\ Utils.ppm_to_molar (Fin ppm) (Fin 0) = Err ZeroDivisionError.
Proof.
  intros Hm. repeat split; xrun; xtests; try reflexivity.
  - do 2 f_equal. field. exact Hm.
  - do 2 f_equal. field. exact Hm.
Qed.

Lemma units_round_trip_witness :
  Utils.ppm_to_molar (Utils.M_to_ppm (Fin 2) (Fin 44)) (Fin 44)
  = Val (Fin 2)
  /\ exc_bind (Utils.ppm_to_molar (Fin 3) (Fin 44))
       (fun molar => Val (Utils.M_to_ppm molar (Fin 44)))
     = Val (Fin 3)
  /\ Utils.ppm_to_molar (Fin 3) (Fin 0) = Err ZeroDivisionError.
Proof. apply (@units_round_trip 2 3 44). lra. Defined.

(** The bicarbonate [get_HCO3_from_alk] takes out of a positive
    alkalinity is the fraction [r / (1 + r)] of it, [r = 10^(pK2 - pH)]:
    strictly between zero and the alkalinity, and half of it at
    [pH = pK2]. *)
Theorem get_HCO3_from_alk_bounds (alk pH pK2 : R) :
  0 < alk ->
  exists x : R,
    Utils.get_HCO3_from_alk (Fin alk) (Fin pH) (Fin pK2) = Fin x
    /\ x = alk * Rpower 10 (pK2 - pH) / (1 + Rpower 10 (pK2 - pH))
    /\ 0 < x < alk
    /\ Utils.get_HCO3_from_alk (Fin alk) (Fin pK2) (Fin pK2)
       = Fin (alk / 2).
Proof.
  intros Ha.
  pose proof (Rpower10_pos (pK2 - pH)) as Hr.
  eexists. split.
  { unfold Utils.get_HCO3_from_alk.
    cbn [py_int pof_int padd psub pmul pquo np_power
         xreal_PyFloat xreal_NumPy lift2].
    rewrite xpower10_fin. cbn [lift2]. rewrite xquo_fin by lra.
    reflexivity. }
  split; [reflexivity|]. split.
  { set (r := Rpower 10 (pK2 - pH)) in *. split.
    - apply Rdiv_lt_0_compat; [apply Rmult_lt_0_compat|]; lra.
    - apply Rmult_lt_reg_r with (1 + r); [lra|].
      replace (alk * r / (1 + r) * (1 + r)) with (alk * r)
        by (field; lra).
      assert (0 < alk * 1) by lra. nra. }
  unfold Utils.get_HCO3_from_alk.
  cbn [py_int pof_int padd psub pmul pquo np_power
       xreal_PyFloat xreal_NumPy lift2].
  rewrite xpower10_fin. cbn [lift2].
  replace (pK2 - pK2) with 0 by ring. rewrite Rpower_O by lra.
  rewrite xquo_fin by lra. f_equal. field.
Qed.

Lemma get_HCO3_from_alk_bounds_witness :
  exists x : R,
    Utils.get_HCO3_from_alk (Fin 3) (Fin 7) (Fin 10) = Fin x
    /\ x = 3 * Rpower 10 (10 - 7) / (1 + Rpower 10 (10 - 7))
    /\ 0 < x < 3
    /\ Utils.get_HCO3_from_alk (Fin 3) (Fin 10) (Fin 10) = Fin (3 / 2).
Proof. apply (@get_HCO3_from_alk_bounds 3 7 10). lra. Defined.

(** The round trip the other way, from a CO2 concentration to a pH and
    back, with the default pK and positive hardness and CO2: it returns
    the CO2 times [r / (1 + r)], [r = 10^(10.3 - pH)], which is
    strictly less than the CO2 it started from. *)
Theorem reverse_round_trip (CO2 KH : R) :
  0 < KH -> 0 < CO2 ->
  exists pH CO2' : R,
    Utils.CO2_to_pH (Fin CO2) (Fin KH) Utils.pK1_default Utils.pK2_default
    = Val (Fin pH)
    /\ Utils.pH_to_CO2 (Fin pH) (Fin KH)
         Utils.pK1_default Utils.pK2_default
       = Val (Fin CO2')
    /\ CO2' = CO2 * Rpower 10 (103 / 10 - pH)
              / (1 + Rpower 10 (103 / 10 - pH))
    /\ 0 < CO2' < CO2.
Proof.
  intros HK HC. destruct pK_defaults as [-> ->].
  pose proof (@HCO3_of_pos KH HK) as Hh.
  pose proof ln10_pos as HL.
  eexists. eexists.
  split; [apply CO2_to_pH_exact; assumption|].
  split; [apply pH_to_CO2_exact; exact HK|].
  set (q := HCO3_of KH / (CO2 / (44 * 1000))).
  set (pH := 652 / 100 + ln q / ln 10).
  set (r := Rpower 10 (103 / 10 - pH)).
  assert (Hr : 0 < r) by apply Rpower10_pos.
  assert (Hq : 0 < q).
  { unfold q. apply Rdiv_lt_0_compat; [lra|].
    apply Rdiv_lt_0_compat; lra. }
  set (hc := HCO3_of KH * r / (1 + r)).
  assert (Hhc : 0 < hc).
  { unfold hc. apply Rdiv_lt_0_compat; [apply Rmult_lt_0_compat|]; lra. }
  assert (E : Rpower 10 (652 / 100 + ln hc / ln 10 - pH) = hc / q).
  { unfold pH.
    replace (652 / 100 + ln hc / ln 10 - (652 / 100 + ln q / ln 10))
      with (ln (hc / q) / ln 10).
    - apply Rpower10_ln. apply Rdiv_lt_0_compat; assumption.
    - change (hc / q) with (hc * / q). rewrite ln_mult;
        [| assumption | apply Rinv_0_lt_compat; assumption].
      rewrite ln_Rinv by assumption. field. lra. }
  rewrite E.
  assert (E2 : hc / q * 44 * 1000 = CO2 * r / (1 + r)).
  { unfold hc, q. field. repeat split; lra. }
  split; [exact E2|]. rewrite E2. split.
  - apply Rdiv_lt_0_compat; [apply Rmult_lt_0_compat|]; lra.
  - apply Rmult_lt_reg_r with (1 + r); [lra|].
    replace (CO2 * r / (1 + r) * (1 + r)) with (CO2 * r) by (field; lra).
    nra.
Qed.

Lemma reverse_round_trip_witness :
  exists pH CO2' : R,
    Utils.CO2_to_pH (Fin 1) (Fin 4) Utils.pK1_default Utils.pK2_default
    = Val (Fin pH)
    /\ Utils.pH_to_CO2 (Fin pH) (Fin 4)
         Utils.pK1_default Utils.pK2_default
       = Val (Fin CO2')
    /\ CO2' = 1 * Rpower 10 (103 / 10 - pH)
              / (1 + Rpower 10 (103 / 10 - pH))
    /\ 0 < CO2' < 1.
Proof. apply (@reverse_round_trip 1 4); lra. Defined.

(** *** The relaxation formulas *)

(** At time zero [first_order_CO2] and [first_order_H] return the
    starting value. *)
Theorem first_order_at_zero (D e s : R) :
  Utils.first_order_CO2 (Fin 0) (Fin D) (Fin e) (Fin s) = Fin s
  /\ Utils.first_order_H (Fin 0) (Fin D) (Fin e) (Fin s) = Fin s.
Proof.
  split; cbv [Utils.first_order_CO2 Utils.first_order_H
              padd psub pmul pneg np_exp
              xreal_PyFloat xreal_PyNeg xreal_NumPyExp lift2 xneg xexp];
    f_equal; replace (- D * 0) with 0 by ring; rewrite exp_0; ring.
Qed.

(** For [D * time >= 0] the two formulas return the same value, and it
    lies between the equilibrium and the starting value: the relaxation
    never overshoots. *)
Theorem first_order_between (t D e s : R) :
  0 <= D * t ->
  exists x : R,
    Utils.first_order_CO2 (Fin t) (Fin D) (Fin e) (Fin s) = Fin x
    /\ Utils.first_order_H (Fin t) (Fin D) (Fin e) (Fin s) = Fin x
    /\ Rmin e s <= x <= Rmax e s.
Proof.
  intros Ht. eexists. split; [reflexivity|]. split; [reflexivity|].
  assert (H0 : 0 < exp (- D * t)) by apply exp_pos.
  assert (H1 : exp (- D * t) <= 1).
  { rewrite <- exp_0. destruct (Req_dec (- D * t) 0) as [E|E].
    - rewrite E. lra.
    - left. apply exp_increasing. lra. }
  unfold Rmin, Rmax. destruct (Rle_dec e s); split; nra.
Qed.

Lemma first_order_between_witness :
  exists x : R,
    Utils.first_order_CO2 (Fin 2) (Fin 3) (Fin 1) (Fin 5) = Fin x
    /\ Utils.first_order_H (Fin 2) (Fin 3) (Fin 1) (Fin 5) = Fin x
    /\ Rmin 1 5 <= x <= Rmax 1 5.
Proof. apply (@first_order_between 2 3 1 5). lra. Defined.

(** Relaxing for [t1] and then, from the value reached, for [t2] is
    relaxing for [t1 + t2]. *)
Theorem first_order_compose (t1 t2 D e s : R) :
  Utils.first_order_CO2 (Fin t2) (Fin D) (Fin e)
    (Utils.first_order_CO2 (Fin t1) (Fin D) (Fin e) (Fin s))
  = Utils.first_order_CO2 (Fin (t1 + t2)) (Fin D) (Fin e) (Fin s).
Proof.
  cbv [Utils.first_order_CO2 padd psub pmul pneg np_exp
       xreal_PyFloat xreal_PyNeg xreal_NumPyExp lift2 xneg xexp].
  f_equal. replace (- D * (t1 + t2)) with (- D * t1 + - D * t2) by ring.
  rewrite exp_plus. ring.
Qed.

(** *** What a consumption call does to the totals *)

(** Redistributing a total over water and headspace and deriving it
    again gives the total back, when the geometry is finite. *)
Lemma redistribute_key (d s h v : R) (tot mr w c : xreal) :
  s <> 0 ->
  pdiv (Fin d * Fin h)%py (Fin s * Fin v)%py = Val mr ->
  pdiv tot (Fin 1 + mr)%py = Val w ->
  pdiv w (Fin v) = Val c ->
  (c * Fin v + (pquo (Fin d) (Fin s) * c) * Fin h = tot)%py.
Proof.
  intros Hs. unfold pdiv.
  destruct tot as [tot|]; cbn;
    xtests; intros E1; inversion E1; subst; clear E1; cbn;
    xtests; intros E2; inversion E2; subst; clear E2; cbn;
    xtests; intros E3; inversion E3; subst; clear E3; cbn;
    xtests; try reflexivity.
  f_equal. field. repeat split; try assumption.
  intros E. match goal with n : 1 + _ <> 0 |- _ => apply n end.
  replace (1 + d * h / (s * v)) with ((s * v + d * h) / (s * v))
    by (field; split; assumption).
  rewrite E. unfold Rdiv. ring.
Qed.

(** The totals after an accepted call that returns, on a tank whose
    mass ratios are the ones of its geometry. *)
Lemma redistributed_totals (v h : R) (O2_used RQ : xreal)
    (self self' : Tank xreal) :
  ratios_from_geometry self ->
  volume self = Fin v -> headspace self = Fin h ->
  rejects O2_used self = false ->
  use_O2 O2_used RQ self = (Val tt, self') ->
  (O2_total_amount self' = O2_total_amount self - O2_used
   /\ CO2_total_amount self'
      = CO2_total_amount self
        + pquo (Utils.M_to_ppm RQ CO2_MW)
               (Utils.M_to_ppm (py_int 1) O2_MW)
          * O2_used)%py.
Proof.
  intros [HC HO] Ev Eh Hacc Hrun.
  edestruct (@use_O2_accepted_inv xreal _ O2_used RQ self self')
    as (p & wO & cO & wC & cC & Hp & HwO & HcO & HwC & HcC
        & E1 & E2 & E3 & E4 & E5 & E6 & E7 & E8);
    [exact Hacc | exact Hrun |].
  rewrite Ev, Eh in *. rewrite E3, E6. split.
  - eapply (@redistribute_key 1430 40);
      [lra | exact HO | exact HwO | exact HcO].
  - assert (Ep : p = (pquo (Utils.M_to_ppm RQ CO2_MW)
                        (Utils.M_to_ppm (py_int 1) O2_MW) * O2_used)%py).
    { revert Hp. destruct RQ, O2_used; xrun; xtests;
        intros Hp; inversion Hp; reflexivity. }
    rewrite <- Ep.
    eapply (@redistribute_key 1964 1449);
      [lra | exact HC | exact HwC | exact HcC].
Qed.

(** In exact arithmetic, an accepted call [use_O2(O2_used, RQ)] that
    returns, on a tank built by the constructor with a finite volume and
    headspace and changed by calls of [use_O2] only, lowers
    [O2_total_amount] by [O2_used] exactly and raises [CO2_total_amount]
    by [(M_to_ppm(RQ, CO2_MW) / M_to_ppm(1, O2_MW)) * O2_used] exactly:
    the redistribution over water and headspace and the derivation that
    follows give the totals back. *)
Theorem use_O2_mass_balance_exact (v h : R) (O2_used RQ : xreal)
    (self self' : Tank xreal) :
  reachable self ->
  volume self = Fin v -> headspace self = Fin h ->
  rejects O2_used self = false ->
  use_O2 O2_used RQ self = (Val tt, self') ->
  (O2_total_amount self' = O2_total_amount self - O2_used
   /\ CO2_total_amount self'
      = CO2_total_amount self
        + pquo (Utils.M_to_ppm RQ CO2_MW)
               (Utils.M_to_ppm (py_int 1) O2_MW)
          * O2_used)%py.
Proof.
  intros Hr. apply redistributed_totals. apply reachable_ratios, Hr.
Qed.

(** In exact arithmetic a tank the constructor returns satisfies the
    partition identity [water_amount * (1 + mass_ratio) = total_amount]
    for both gases, before any consumption call. *)
Theorem new_Tank_partition_exact (v h kh c o : xreal) (self : Tank xreal) :
  new_Tank v h kh c o = Val self ->
  partition_CO2 self /\ partition_O2 self.
Proof.
  intros E.
  destruct (new_Tank_water _ _ _ _ _ E) as (Ev & Wc & Wo).
  destruct (new_Tank_headspace _ _ _ _ _ E) as (Eh & Hc & Ho & _).
  destruct (new_Tank_conserved _ _ _ _ _ E) as [Tc To].
  destruct (new_Tank_ratios _ _ _ _ _ E) as [HC HO].
  unfold partition_CO2, partition_O2, conserved_CO2, conserved_O2 in *.
  rewrite Tc, To, Wc, Wo, Hc, Ho. rewrite Ev, Eh in *.
  clear - HC HO. revert HC HO. unfold pdiv.
  destruct v as [v|], h as [h|], c as [c|], o as [o|]; xrun; xtests;
    intros HC HO; inversion HC; inversion HO; subst;
    try reflexivity; split; try reflexivity; f_equal; field; lra.
Qed.

Lemma xsub_add (t a b : xreal) : (t - a - b = t - (a + b))%py.
Proof. destruct t, a, b; cbn; try reflexivity. f_equal. ring. Qed.

Lemma xadd_mul (t k a b : xreal) :
  (t + k * a + k * b = t + k * (a + b))%py.
Proof. destruct t, k, a, b; cbn; try reflexivity. f_equal. ring. Qed.

(** In exact arithmetic two accepted calls of [use_O2] in a row, each
    returning, do what one call with the sum of the amounts does: on a
    tank built by the constructor with a finite volume and headspace and
    changed by calls of [use_O2] only, [use_O2(a, RQ)] followed by
    [use_O2(b, RQ)] leaves the state [use_O2(a + b, RQ)] leaves, and
    that call returns too. *)
Theorem use_O2_compose_exact (v h : R) (a b RQ : xreal)
    (self s1 s2 : Tank xreal) :
  reachable self ->
  volume self = Fin v -> headspace self = Fin h ->
  rejects a self = false -> use_O2 a RQ self = (Val tt, s1) ->
  rejects b s1 = false -> use_O2 b RQ s1 = (Val tt, s2) ->
  use_O2 (a + b)%py RQ self = (Val tt, s2).
Proof.
  intros Hr Ev Eh Ha E1 Hb E2.
  destruct (@redistributed_totals v h a RQ self s1
              (reachable_ratios Hr) Ev Eh Ha E1) as [TO TC].
  pose proof (use_O2_frame a RQ self) as F. rewrite E1 in F.
  cbn [state_after snd] in F.
  destruct F as (Fv & Fh & Fk & Fc & Fo & Fd).
  revert Hb E2. apply use_O2_same_result; try assumption.
  - rewrite TO. apply xsub_add.
  - rewrite TC. apply xadd_mul.
Qed.

(** The scenario in exact arithmetic: [Tank(100, 50, KH=4)],
    [use_O2(10)] on it and [use_O2(5)] after that. *)
Lemma exact_scenario :
  exists self s1 s2 : Tank xreal,
    new_Tank (py_int 100) (py_int 50) (py_int 4)
      room_CO2_equilibrium_default room_O2_equilibrium_default = Val self
    /\ volume self = Fin 100 /\ headspace self = Fin 50
    /\ rejects (py_int 10) self = false
    /\ use_O2 (py_int 10) RQ_default self = (Val tt, s1)
    /\ rejects (py_int 5) s1 = false
    /\ use_O2 (py_int 5) RQ_default s1 = (Val tt, s2).
Proof.
  assert (E0 : exists self : Tank xreal,
             new_Tank (py_int 100) (py_int 50) (py_int 4)
               room_CO2_equilibrium_default room_O2_equilibrium_default
             = Val self).
  { xrun. xtests. eexists. reflexivity. }
  destruct E0 as [self E0]. exists self.
  assert (E1 : exists s1,
             use_O2 (py_int 10) RQ_default self = (Val tt, s1)).
  { revert E0. xrun. xtests. intros E0. inversion E0; subst; clear E0.
    xrun. xtests. eexists. reflexivity. }
  destruct E1 as [s1 E1]. exists s1.
  assert (E2 : exists s2, rejects (py_int 5) s1 = false
                          /\ use_O2 (py_int 5) RQ_default s1 = (Val tt, s2)).
  { revert E0 E1. xrun. xtests.
    intros E0. inversion E0; subst; clear E0.
    xrun. xtests. intros E1. inversion E1; subst; clear E1.
    xrun. xtests. eexists. split; reflexivity. }
  destruct E2 as (s2 & Hb & E2). exists s2.
  split; [exact E0|].
  split; [revert E0; xrun; xtests; intros E0; inversion E0; reflexivity|].
  split; [revert E0; xrun; xtests; intros E0; inversion E0; reflexivity|].
  split; [|split; [exact E1|split; [exact Hb | exact E2]]].
  clear - E0. revert E0. xrun. xtests.
  intros E0. inversion E0; subst; clear E0.
  xrun. xtests. reflexivity.
Qed.

Lemma use_O2_mass_balance_exact_witness :
  exists self self' : Tank xreal,
    use_O2 (py_int 10) RQ_default self = (Val tt, self')
    /\ (O2_total_amount self' = O2_total_amount self - py_int 10
        /\ CO2_total_amount self'
           = CO2_total_amount self
             + pquo (Utils.M_to_ppm RQ_default CO2_MW)
                    (Utils.M_to_ppm (py_int 1) O2_MW)
               * py_int 10)%py.
Proof.
  destruct exact_scenario
    as (self & self' & _ & E0 & Ev & Eh & Hacc & E1 & _).
  exists self, self'. split; [exact E1|].
  eapply use_O2_mass_balance_exact;
    [eapply reach_new; exact E0 | exact Ev | exact Eh | exact Hacc
    | exact E1].
Defined.

Lemma new_Tank_partition_exact_witness :
  exists self : Tank xreal,
    new_Tank (py_int 100) (py_int 50) (py_int 4)
      room_CO2_equilibrium_default room_O2_equilibrium_default = Val self
    /\ partition_CO2 self /\ partition_O2 self.
Proof.
  destruct exact_scenario as (self & _ & _ & E0 & _).
  exists self. split; [exact E0|].
  eapply new_Tank_partition_exact. exact E0.
Defined.

Lemma use_O2_compose_exact_witness :
  exists self s1 s2 : Tank xreal,
    new_Tank (py_int 100) (py_int 50) (py_int 4)
      room_CO2_equilibrium_default room_O2_equilibrium_default = Val self
    /\ use_O2 (py_int 10) RQ_default self = (Val tt, s1)
    /\ use_O2 (py_int 5) RQ_default s1 = (Val tt, s2)
    /\ use_O2 (py_int 10 + py_int 5)%py RQ_default self = (Val tt, s2).
Proof.
  destruct exact_scenario
    as (self & s1 & s2 & E0 & Ev & Eh & Hacc & E1 & Hb & E2).
  exists self, s1, s2.
  split; [exact E0|]. split; [exact E1|]. split; [exact E2|].
  eapply use_O2_compose_exact;
    [eapply reach_new; exact E0 | exact Ev | exact Eh | exact Hacc
    | exact E1 | exact Hb | exact E2].
Defined.
